(** * An in-memory item store served over HTTP (src/main.py)

    The module keeps one process-wide dictionary [items_db] from UUIDs to
    [ItemResponse] objects and exposes five request handlers over it.  The
    development below embeds the Python of [src/main.py] in Rocq:

    - Python values: a UUID is its 128-bit integer, a [dict] is an
      insertion-ordered association list, objects live in a heap and are
      handled through references, [list[a:b]] follows CPython's slice
      adjustment;
    - effects: a handler is a function from the world (heap and [items_db])
      to an outcome and a new world; an exception leaves the world as it is
      at the point of the [raise];
    - the FastAPI boundary: request bodies are validated into [ItemCreate]
      before a handler runs, and the object a handler returns is read back
      through the declared response model. *)

From Stdlib Require Import ZArith NArith Lia Ascii.
From stdpp Require Import base list strings.

(** ** Python values *)

(** [uuid.UUID]: equality and hashing go through the [int] attribute, an
    integer in [0, 2^128). *)
Abbreviation UUID := N (only parsing).

Definition UUID_in_range (u : UUID) : Prop := (u < 2 ^ 128)%N.

Definition hex_digit (d : N) : ascii :=
  match d with
  | 0 => "0" | 1 => "1" | 2 => "2" | 3 => "3" | 4 => "4" | 5 => "5"
  | 6 => "6" | 7 => "7" | 8 => "8" | 9 => "9" | 10 => "a" | 11 => "b"
  | 12 => "c" | 13 => "d" | 14 => "e" | _ => "f"
  end%N%char.

(** The value of a hexadecimal digit, for reading an identifier back. *)
Definition hex_value (c : ascii) : N :=
  let n := N_of_ascii c in
  if (n <? 58)%N then (n - 48)%N else (n - 87)%N.

(** The [n] low hexadecimal digits of [x], most significant first
    (['%032x' % x] for [n = 32] and [x] in range). *)
Fixpoint hex_digits (n : nat) (x : N) : list ascii :=
  match n with
  | O => []
  | S n' => hex_digits n' (x / 16)%N ++ [hex_digit (x mod 16)%N]
  end.

(** [str(u)] for a [uuid.UUID]: the 32 digits cut 8-4-4-4-12. *)
Definition UUID_str (u : UUID) : string :=
  let hex := hex_digits 32 u in
  let dash := ["-"%char] in
  String.string_of_list_ascii
    (take 8 hex ++ dash ++ take 4 (drop 8 hex) ++ dash ++
     take 4 (drop 12 hex) ++ dash ++ take 4 (drop 16 hex) ++ dash ++
     drop 20 hex).

(** A [dict] keyed by UUIDs.  Python dictionaries iterate in insertion
    order and hold one entry per key. *)
Section dict.
Context {V : Type}.

Abbreviation dict := (list (UUID * V)).

(** [d.get(k)] *)
Fixpoint dict_get (k : UUID) (d : dict) : option V :=
  match d with
  | [] => None
  | (k', v) :: d' => if (k' =? k)%N then Some v else dict_get k d'
  end.

(** [k in d] *)
Definition dict_contains (k : UUID) (d : dict) : bool :=
  match dict_get k d with Some _ => true | None => false end.

(** [d[k] = v]: an existing key keeps its position, a new key goes last. *)
Fixpoint dict_setitem (k : UUID) (v : V) (d : dict) : dict :=
  match d with
  | [] => [(k, v)]
  | (k', v') :: d' =>
      if (k' =? k)%N then (k', v) :: d' else (k', v') :: dict_setitem k v d'
  end.

(** [del d[k]]; [None] stands for the [KeyError] of a missing key. *)
Fixpoint dict_delitem (k : UUID) (d : dict) : option dict :=
  match d with
  | [] => None
  | (k', v') :: d' =>
      if (k' =? k)%N then Some d' else cons (k', v') <$> dict_delitem k d'
  end.

(** [list(d.values())] and [list(d.keys())] *)
Definition dict_values (d : dict) : list V := d.*2.
Definition dict_keys (d : dict) : list UUID := d.*1.
End dict.

Abbreviation dict V := (list (UUID * V)) (only parsing).

(** Slice bounds are clipped the way CPython's [PySlice_AdjustIndices]
    does for step 1: a negative bound counts from the end. *)
Definition slice_adjust (len i : Z) : Z :=
  if (i <? 0)%Z
  then (if (i + len <? 0)%Z then 0%Z else (i + len)%Z)
  else (if (len <? i)%Z then len else i).

(** [l[start:stop]] *)
Definition list_slice {A} (l : list A) (start stop : Z) : list A :=
  let len := Z.of_nat (length l) in
  let lo := slice_adjust len start in
  let hi := slice_adjust len stop in
  take (Z.to_nat (hi - lo)) (drop (Z.to_nat lo) l).

(** ** Pydantic models *)

Module ItemCreate.
Record t := mk { text : string; is_done : bool }.
End ItemCreate.

Module ItemResponse.
Record t := mk { id : UUID; text : string; is_done : bool }.
End ItemResponse.

(** ** The world: object heap and the module-level dictionary *)

(** A reference is an index into the heap. *)
Abbreviation ref := nat (only parsing).

Record World := mkWorld {
  heap : list ItemResponse.t;
  items_db : dict ref
}.

(** [items_db = {}] at import time. *)
Definition World_init : World := {| heap := []; items_db := [] |}.

Definition HTTP_404_NOT_FOUND : Z := 404.

Inductive Exception :=
| HTTPException (status_code : Z) (detail : string)
| RequestValidationError (loc : string) (type_ : string)
| KeyError (key : UUID).

(** [Dangling] is the outcome of reading through a reference that points
    outside the heap; Python has no such references, and well-formed
    worlds never produce it. *)
Inductive Outcome (A : Type) :=
| Return (a : A)
| Raise (e : Exception)
| Dangling.
Arguments Return {A} a.
Arguments Raise {A} e.
Arguments Dangling {A}.

Definition Handler (A : Type) := World -> Outcome A * World.

Definition ret {A} (a : A) : Handler A := fun w => (Return a, w).

Definition raise {A} (e : Exception) : Handler A := fun w => (Raise e, w).

Definition bind {A B} (m : Handler A) (f : A -> Handler B) : Handler B :=
  fun w =>
    match m w with
    | (Return a, w') => f a w'
    | (Raise e, w') => (Raise e, w')
    | (Dangling, w') => (Dangling, w')
    end.

Notation "'do' x <- m ; k" := (bind m (fun x => k))
  (at level 10, x name, m at level 100, k at level 200).

(** [ItemResponse(id=..., text=..., is_done=...)]: a new object. *)
Definition ItemResponse_new (id : UUID) (text : string) (is_done : bool)
  : Handler ref :=
  fun w => (Return (length (heap w)),
            {| heap := heap w ++ [ItemResponse.mk id text is_done];
               items_db := items_db w |}).

(** [item.text = v] *)
Definition setattr_text (item : ref) (v : string) : Handler unit :=
  fun w => (Return tt,
            {| heap := alter (fun o => ItemResponse.mk (ItemResponse.id o) v
                                         (ItemResponse.is_done o))
                         item (heap w);
               items_db := items_db w |}).

(** [item.is_done = v] *)
Definition setattr_is_done (item : ref) (v : bool) : Handler unit :=
  fun w => (Return tt,
            {| heap := alter (fun o => ItemResponse.mk (ItemResponse.id o)
                                         (ItemResponse.text o) v)
                         item (heap w);
               items_db := items_db w |}).

Definition items_db_get (k : UUID) : Handler (option ref) :=
  fun w => (Return (dict_get k (items_db w)), w).

Definition items_db_contains (k : UUID) : Handler bool :=
  fun w => (Return (dict_contains k (items_db w)), w).

Definition items_db_setitem (k : UUID) (v : ref) : Handler unit :=
  fun w => (Return tt,
            {| heap := heap w; items_db := dict_setitem k v (items_db w) |}).

Definition items_db_delitem (k : UUID) : Handler unit :=
  fun w =>
    match dict_delitem k (items_db w) with
    | Some d => (Return tt, {| heap := heap w; items_db := d |})
    | None => (Raise (KeyError k), w)
    end.

Definition items_db_values : Handler (list ref) :=
  fun w => (Return (dict_values (items_db w)), w).

(** ** The request handlers *)

(** [f"Item with ID {item_id} not found"] *)
Definition not_found_detail (item_id : UUID) : string :=
  "Item with ID " +:+ UUID_str item_id +:+ " not found".

(** [create_item]; [uuid4] is the value [uuid.uuid4()] evaluates to in
    this call, drawn from the operating system's random source. *)
Definition create_item (uuid4 : UUID) (item_in : ItemCreate.t) : Handler ref :=
  let item_id := uuid4 in
  do new_item <- ItemResponse_new item_id (ItemCreate.text item_in)
                                  (ItemCreate.is_done item_in);
  do _ <- items_db_setitem item_id new_item;
  ret new_item.

(** [list_items]; a request that leaves out [skip] or [limit] reaches the
    handler with the declared defaults 0 and 10. *)
Definition list_items (skip limit : Z) : Handler (list ref) :=
  do all_items <- items_db_values;
  ret (list_slice all_items skip (skip + limit)%Z).

(** An [ItemResponse] object is truthy, so [not item] holds for [None]
    only. *)
Definition get_item (item_id : UUID) : Handler ref :=
  do item <- items_db_get item_id;
  match item with
  | None => raise (HTTPException HTTP_404_NOT_FOUND (not_found_detail item_id))
  | Some item => ret item
  end.

Definition update_item (item_id : UUID) (item_update : ItemCreate.t)
  : Handler ref :=
  do item <- items_db_get item_id;
  match item with
  | None => raise (HTTPException HTTP_404_NOT_FOUND (not_found_detail item_id))
  | Some item =>
      do _ <- setattr_text item (ItemCreate.text item_update);
      do _ <- setattr_is_done item (ItemCreate.is_done item_update);
      do _ <- items_db_setitem item_id item;
      ret item
  end.

Definition delete_item (item_id : UUID) : Handler unit :=
  do present <- items_db_contains item_id;
  if negb present
  then raise (HTTPException HTTP_404_NOT_FOUND (not_found_detail item_id))
  else do _ <- items_db_delitem item_id; ret tt.

(** ** The FastAPI boundary *)

(** A JSON request body for [ItemCreate]: each field is present or not. *)
Record Body := mkBody {
  body_text : option string;
  body_is_done : option bool
}.

(** [ItemCreate] as declared: [text] is required with [min_length=1],
    [is_done] defaults to [False].  A body that does not validate is
    answered by FastAPI before the handler is entered. *)
Definition ItemCreate_validate (b : Body) : Exception + ItemCreate.t :=
  match body_text b with
  | None => inl (RequestValidationError "text" "missing")
  | Some t =>
      if (String.length t <? 1)%nat
      then inl (RequestValidationError "text" "string_too_short")
      else inr (ItemCreate.mk t (default false (body_is_done b)))
  end.

(** [response_model=ItemResponse]: the returned object is read when the
    handler has returned. *)
Definition serialize (item : ref) : Handler ItemResponse.t :=
  fun w =>
    match heap w !! item with
    | Some o => (Return o, w)
    | None => (Dangling, w)
    end.

(** [response_model=List[ItemResponse]] *)
Fixpoint serialize_list (items : list ref) : Handler (list ItemResponse.t) :=
  match items with
  | [] => ret []
  | item :: items' =>
      do o <- serialize item;
      do os <- serialize_list items';
      ret (o :: os)
  end.

(** [@app.post("/items")] *)
Definition POST_items (uuid4 : UUID) (body : Body) : Handler ItemResponse.t :=
  match ItemCreate_validate body with
  | inl e => raise e
  | inr item_in => do r <- create_item uuid4 item_in; serialize r
  end.

(** [@app.get("/items")] *)
Definition GET_items (skip limit : Z) : Handler (list ItemResponse.t) :=
  do rs <- list_items skip limit; serialize_list rs.

(** [@app.get("/items/{item_id}")] *)
Definition GET_item (item_id : UUID) : Handler ItemResponse.t :=
  do r <- get_item item_id; serialize r.

(** [@app.put("/items/{item_id}")] *)
Definition PUT_item (item_id : UUID) (body : Body) : Handler ItemResponse.t :=
  match ItemCreate_validate body with
  | inl e => raise e
  | inr item_update => do r <- update_item item_id item_update; serialize r
  end.

(** [@app.delete("/items/{item_id}")] *)
Definition DELETE_item (item_id : UUID) : Handler unit :=
  delete_item item_id.

(** ** Requests and reachable worlds *)

Inductive Request :=
| Create (uuid4 : UUID) (body : Body)
| List (skip limit : Z)
| Get (item_id : UUID)
| Update (item_id : UUID) (body : Body)
| Delete (item_id : UUID).

Inductive Reply :=
| ReplyItem (item : ItemResponse.t)
| ReplyItems (items : list ItemResponse.t)
| ReplyNone.

Definition serve (rq : Request) : Handler Reply :=
  match rq with
  | Create uuid4 body => do i <- POST_items uuid4 body; ret (ReplyItem i)
  | List skip limit => do l <- GET_items skip limit; ret (ReplyItems l)
  | Get item_id => do i <- GET_item item_id; ret (ReplyItem i)
  | Update item_id body => do i <- PUT_item item_id body; ret (ReplyItem i)
  | Delete item_id => do _ <- DELETE_item item_id; ret ReplyNone
  end.

(** The worlds the process can be in: the initial one, and the one left by
    any request served from a reachable world. *)
Inductive reachable : World -> Prop :=
| reachable_init : reachable World_init
| reachable_serve rq w : reachable w -> reachable (serve rq w).2.

(** The world after serving a sequence of requests. *)
Definition serve_all (rqs : list Request) (w : World) : World :=
  foldl (fun w rq => (serve rq w).2) w rqs.

(** ** The store as clients see it *)

(** The mapping from identifier to item record: [items_db] with every
    reference read through the heap. *)
Definition resolve (h : list ItemResponse.t) (d : dict ref)
  : dict ItemResponse.t :=
  omap (fun kr => pair kr.1 <$> h !! kr.2) d.
Arguments resolve : simpl never.

Definition store (w : World) : dict ItemResponse.t :=
  resolve (heap w) (items_db w).

Definition refs_valid (h : list ItemResponse.t) (d : dict ref) : Prop :=
  Forall (fun r => r < length h) (dict_values d).

(** Well-formed worlds: one entry per key, every stored reference points
    into the heap, and no object is stored under two keys. *)
Definition wf (w : World) : Prop :=
  NoDup (dict_keys (items_db w)) /\
  refs_valid (heap w) (items_db w) /\
  NoDup (dict_values (items_db w)).

(** The invariant of the data model: non-empty text, and the [id] field of
    an item is the key it is stored under. *)
Definition item_ok (kv : UUID * ItemResponse.t) : Prop :=
  ItemResponse.text kv.2 <> "" /\ ItemResponse.id kv.2 = kv.1.

Definition store_inv (w : World) : Prop :=
  Forall item_ok (store w) /\ NoDup (dict_keys (store w)).

(** ** Vocabulary of the statements *)

(** The spec's [NotFoundError]: the 404 raised with the identifier in its
    message. *)
Definition NotFoundError (item_id : UUID) : Exception :=
  HTTPException HTTP_404_NOT_FOUND (not_found_detail item_id).

(** The spec's [ValidationError]: the request was refused at the boundary. *)
Definition ValidationError (e : Exception) : Prop :=
  exists loc type_, e = RequestValidationError loc type_.

(** What [update_item] leaves in place of [old]. *)
Definition updated (item_update : ItemCreate.t) (old : ItemResponse.t)
  : ItemResponse.t :=
  ItemResponse.mk (ItemResponse.id old) (ItemCreate.text item_update)
                  (ItemCreate.is_done item_update).

(** ** Sample data *)

Definition uuid_a : UUID := 0x1b4e28ba2fa141d2883f0b9b3c0a5e01%N.
Definition uuid_b : UUID := 0x6fa459ea7e2d4c1b9d0a2c4f5e6a7b02%N.
Definition uuid_c : UUID := 0x9c858901d8a14a57b0f3a1e2d3c4b503%N.

Definition body_of (t : string) (d : bool) : Body :=
  {| body_text := Some t; body_is_done := Some d |}.

Definition world_ab : World :=
  serve_all [Create uuid_a (body_of "buy milk" false);
             Create uuid_b (body_of "walk dog" true)] World_init.

(** One call of [create_item]: the identifier drawn, the text and the
    flag. *)
Definition create_request (c : UUID * string * bool) : Request :=
  Create c.1.1 (body_of c.1.2 c.2).

Definition created_item (c : UUID * string * bool) : ItemResponse.t :=
  ItemResponse.mk c.1.1 c.1.2 c.2.

Definition sample_uuid (n : N) : UUID :=
  (0x3f2504e04f8941d39a0c0305e82c3300 + n)%N.

Definition fourteen : list (UUID * string * bool) :=
  [(sample_uuid 0, "a", false); (sample_uuid 1, "b", false);
   (sample_uuid 2, "c", true); (sample_uuid 3, "d", false);
   (sample_uuid 4, "e", false); (sample_uuid 5, "f", true);
   (sample_uuid 6, "g", false); (sample_uuid 7, "h", false);
   (sample_uuid 8, "i", true); (sample_uuid 9, "j", false);
   (sample_uuid 10, "k", false); (sample_uuid 11, "l", true);
   (sample_uuid 12, "m", false); (sample_uuid 13, "n", false)].

(** Fifteen creations with fifteen different identifiers. *)
Definition fifteen_distinct : list (UUID * string * bool) :=
  fourteen ++ [(sample_uuid 14, "o", true)].

Definition world_of (cs : list (UUID * string * bool)) : World :=
  serve_all (create_request <$> cs) World_init.

(** ** Utility endpoints and HTTP answers *)

Definition HTTP_200_OK : Z := 200.
Definition HTTP_201_CREATED : Z := 201.
Definition HTTP_204_NO_CONTENT : Z := 204.
Definition HTTP_422_UNPROCESSABLE_ENTITY : Z := 422.
Definition HTTP_500_INTERNAL_SERVER_ERROR : Z := 500.

(** The body of an answer. *)
Inductive Content :=
| Empty
| JsonItem (item : ItemResponse.t)
| JsonItems (items : list ItemResponse.t)
| JsonObject (fields : list (string * string))
| JsonDetail (detail : string)
| JsonValidation (loc type_ : string)
| PlainText (text : string).

(** [favicon]: [Response(status_code=status.HTTP_204_NO_CONTENT)] *)
Definition favicon : Handler (Z * Content) :=
  ret (HTTP_204_NO_CONTENT, Empty).

(** [root]: the greeting dictionary. *)
Definition root : Handler (list (string * string)) :=
  ret [("Hello", "World");
       ("message", "Greetings from Salford, UK on this fine Tuesday evening!")].

Inductive HttpRequest :=
| GetRoot
| GetFavicon
| Api (rq : Request).

(** The answer to an outcome: a returned value is rendered by the route,
    an [HTTPException] answers with its own status and detail, a body that
    did not validate with 422, and anything else is a server error. *)
Definition answer {A} (render : A -> Z * Content) (o : Outcome A)
  : Z * Content :=
  match o with
  | Return a => render a
  | Raise (HTTPException status_code detail) => (status_code, JsonDetail detail)
  | Raise (RequestValidationError loc type_) =>
      (HTTP_422_UNPROCESSABLE_ENTITY, JsonValidation loc type_)
  | Raise (KeyError _) | Dangling =>
      (HTTP_500_INTERNAL_SERVER_ERROR, PlainText "Internal Server Error")
  end.

(** Each route with the success status its decorator declares (200 when
    none is given). *)
Definition respond (hrq : HttpRequest) (w : World) : (Z * Content) * World :=
  match hrq with
  | GetRoot =>
      let (o, w') := root w in
      (answer (fun d => (HTTP_200_OK, JsonObject d)) o, w')
  | GetFavicon =>
      let (o, w') := favicon w in (answer (fun r => r) o, w')
  | Api (Create uuid4 body) =>
      let (o, w') := POST_items uuid4 body w in
      (answer (fun i => (HTTP_201_CREATED, JsonItem i)) o, w')
  | Api (List skip limit) =>
      let (o, w') := GET_items skip limit w in
      (answer (fun l => (HTTP_200_OK, JsonItems l)) o, w')
  | Api (Get item_id) =>
      let (o, w') := GET_item item_id w in
      (answer (fun i => (HTTP_200_OK, JsonItem i)) o, w')
  | Api (Update item_id body) =>
      let (o, w') := PUT_item item_id body w in
      (answer (fun i => (HTTP_200_OK, JsonItem i)) o, w')
  | Api (Delete item_id) =>
      let (o, w') := DELETE_item item_id w in
      (answer (fun _ => (HTTP_204_NO_CONTENT, Empty)) o, w')
  end.

(** The status and the world of a response. *)
Definition status_of (r : (Z * Content) * World) : Z := r.1.1.
Definition content_of (r : (Z * Content) * World) : Content := r.1.2.

(** The method each route is registered under. *)
Inductive Method := GET | POST | PUT | DELETE.

Definition method (hrq : HttpRequest) : Method :=
  match hrq with
  | GetRoot | GetFavicon | Api (List _ _) | Api (Get _) => GET
  | Api (Create _ _) => POST
  | Api (Update _ _) => PUT
  | Api (Delete _) => DELETE
  end.

(** ** Printing identifiers *)

Section uuid_facts.
Implicit Types (x y : N) (n : nat).

Lemma hex_value_digit x : (x < 16)%N -> hex_value (hex_digit x) = x.
Proof.
  intros Hx.
  assert (x = 0 \/ x = 1 \/ x = 2 \/ x = 3 \/ x = 4 \/ x = 5 \/ x = 6 \/ x = 7 \/
          x = 8 \/ x = 9 \/ x = 10 \/ x = 11 \/ x = 12 \/ x = 13 \/ x = 14 \/
          x = 15)%N as Hcases by lia.
  destruct_or!; by subst.
Qed.

Lemma hex_digits_length n x : length (hex_digits n x) = n.
Proof.
  revert x. induction n as [|n IH]; intros x; [done|].
  simpl. rewrite length_app, IH. simpl. lia.
Qed.

(** Different numbers below [16^n] have different digits. *)
Lemma hex_digits_inj n x y :
  (x < 16 ^ N.of_nat n)%N -> (y < 16 ^ N.of_nat n)%N ->
  hex_digits n x = hex_digits n y -> x = y.
Proof.
  revert x y. induction n as [|n IH]; intros x y Hx Hy Heq.
  - simpl in Hx, Hy. lia.
  - rewrite Nat2N.inj_succ, N.pow_succ_r' in Hx, Hy. simpl in Heq.
    apply app_inj_2 in Heq as [Hhi [= Hlo]]; [|done].
    apply IH in Hhi; [|by apply N.Div0.div_lt_upper_bound..].
    assert (x mod 16 = y mod 16)%N as Hmod.
    { rewrite <- (hex_value_digit (x mod 16)), <- (hex_value_digit (y mod 16))
        by (by apply N.mod_lt). by rewrite Hlo. }
    rewrite (N.div_mod' x 16), (N.div_mod' y 16). by rewrite Hhi, Hmod.
Qed.

(** The message of the 404 determines the identifier it was raised for. *)
Lemma not_found_detail_inj (k k' : UUID) :
  UUID_in_range k -> UUID_in_range k' ->
  not_found_detail k = not_found_detail k' -> k = k'.
Proof.
  unfold UUID_in_range. intros Hk Hk'.
  assert (2 ^ 128 = 16 ^ N.of_nat 32)%N as E by reflexivity.
  rewrite E in Hk, Hk'. intros Heq. apply (hex_digits_inj 32); [done..|].
  revert Heq. unfold not_found_detail, UUID_str.
  generalize (hex_digits_length 32 k) (hex_digits_length 32 k').
  generalize (hex_digits 32 k) (hex_digits 32 k'). intros hx hy Hx Hy.
  do 32 (destruct hx as [|? hx]; [done|]). destruct hx; [|done].
  do 32 (destruct hy as [|? hy]; [done|]). destruct hy; [|done].
  simpl. intros [= ]. by subst.
Qed.
End uuid_facts.

(** ** Facts about dictionaries *)

Section dict_facts.
Context {V : Type}.
Implicit Types (d : dict V) (k : UUID) (v : V).

Lemma dict_get_None k d : dict_get k d = None <-> k ∉ dict_keys d.
Proof.
  unfold dict_keys. induction d as [|[k' v'] d IH]; simpl.
  - split; [intros _; apply not_elem_of_nil | done].
  - rewrite not_elem_of_cons. destruct (N.eqb_spec k' k) as [->|Hne].
    + split; [done | by intros [? _]].
    + rewrite IH. split; [|by intros [_ ?]].
      intros ?; split; [by intros ->|done].
Qed.

Lemma dict_get_Some_elem k v d : dict_get k d = Some v -> (k, v) ∈ d.
Proof.
  induction d as [|[k' v'] d IH]; simpl; [done|].
  destruct (N.eqb_spec k' k) as [->|Hne].
  - intros [= ->]. left.
  - intros H. right. auto.
Qed.

Lemma dict_get_is_Some k d : is_Some (dict_get k d) <-> k ∈ dict_keys d.
Proof.
  rewrite <- not_eq_None_Some, dict_get_None.
  split; [apply dec_stable | auto].
Qed.

Lemma dict_elem_get k v d :
  NoDup (dict_keys d) -> (k, v) ∈ d -> dict_get k d = Some v.
Proof.
  unfold dict_keys. induction d as [|[k' v'] d IH]; simpl.
  - intros _ H. by apply elem_of_nil in H.
  - rewrite NoDup_cons, elem_of_cons. intros [Hk' Hnd] [[= -> ->]|Hin].
    + by rewrite N.eqb_refl.
    + destruct (N.eqb_spec k' k) as [->|Hne]; [|by apply IH].
      exfalso. apply Hk'. apply list_elem_of_fmap. by exists (k, v).
Qed.

Lemma dict_contains_true k d : dict_contains k d = true <-> k ∈ dict_keys d.
Proof.
  rewrite <- dict_get_is_Some. unfold dict_contains.
  destruct (dict_get k d); split; done.
Qed.

(** Assigning to a key that is not there appends the entry. *)
Lemma dict_setitem_fresh k v d :
  k ∉ dict_keys d -> dict_setitem k v d = d ++ [(k, v)].
Proof.
  unfold dict_keys. induction d as [|[k' v'] d IH]; simpl; [done|].
  rewrite not_elem_of_cons. intros [Hne Hk].
  destruct (N.eqb_spec k' k) as [->|_]; [done|]. by rewrite IH.
Qed.

(** Assigning to a key that is there keeps every key where it is. *)
Lemma dict_setitem_keys k v d :
  k ∈ dict_keys d -> dict_keys (dict_setitem k v d) = dict_keys d.
Proof.
  unfold dict_keys. induction d as [|[k' v'] d IH]; simpl.
  - intros H. by apply elem_of_nil in H.
  - rewrite elem_of_cons. intros Hin.
    destruct (N.eqb_spec k' k) as [->|Hne]; [done|].
    simpl. f_equal. apply IH. by destruct Hin as [->|?].
Qed.

Lemma dict_setitem_length k v d :
  k ∈ dict_keys d -> length (dict_setitem k v d) = length d.
Proof.
  intros H. apply dict_setitem_keys with (v := v) in H.
  unfold dict_keys in H.
  by rewrite <- (length_fmap fst), H, length_fmap.
Qed.

Lemma dict_get_setitem_eq k v d : dict_get k (dict_setitem k v d) = Some v.
Proof.
  induction d as [|[k' v'] d IH]; simpl.
  - by rewrite N.eqb_refl.
  - destruct (N.eqb_spec k' k) as [->|Hne]; simpl.
    + by rewrite N.eqb_refl.
    + by destruct (N.eqb_spec k' k).
Qed.

Lemma dict_get_setitem_ne k k' v d :
  k <> k' -> dict_get k' (dict_setitem k v d) = dict_get k' d.
Proof.
  intros Hne. induction d as [|[k0 v0] d IH]; simpl.
  - by destruct (N.eqb_spec k k').
  - destruct (N.eqb_spec k0 k) as [->|Hne0]; simpl.
    + by destruct (N.eqb_spec k k').
    + by rewrite IH.
Qed.

(** Re-assigning the value a key already has changes nothing. *)
Lemma dict_setitem_same k v d :
  dict_get k d = Some v -> dict_setitem k v d = d.
Proof.
  induction d as [|[k' v'] d IH]; simpl; [done|].
  destruct (N.eqb_spec k' k) as [->|Hne].
  - by intros [= ->].
  - intros H. by rewrite IH.
Qed.

Lemma dict_setitem_keys_NoDup k v d :
  NoDup (dict_keys d) -> NoDup (dict_keys (dict_setitem k v d)).
Proof.
  intros Hnd. destruct (decide (k ∈ dict_keys d)) as [Hin|Hnin].
  - by rewrite dict_setitem_keys.
  - rewrite dict_setitem_fresh by done. unfold dict_keys in *.
    rewrite fmap_app. apply NoDup_app. split_and!; [done| |apply NoDup_singleton].
    intros x Hx. simpl. rewrite list_elem_of_singleton. by intros ->.
Qed.

Lemma dict_setitem_values k v d x :
  x ∈ dict_values (dict_setitem k v d) -> x = v \/ x ∈ dict_values d.
Proof.
  unfold dict_values. induction d as [|[k' v'] d IH]; simpl.
  - rewrite list_elem_of_singleton. auto.
  - destruct (N.eqb_spec k' k) as [->|Hne]; simpl;
      rewrite !elem_of_cons; tauto.
Qed.

Lemma dict_setitem_values_NoDup k v d :
  NoDup (dict_values d) -> v ∉ dict_values d ->
  NoDup (dict_values (dict_setitem k v d)).
Proof.
  unfold dict_values. induction d as [|[k' v'] d IH]; simpl.
  - intros _ _. apply NoDup_singleton.
  - rewrite NoDup_cons, not_elem_of_cons. intros [Hv' Hnd] [Hne Hv].
    destruct (N.eqb_spec k' k) as [->|Hk]; simpl; rewrite NoDup_cons.
    + done.
    + split; [|by apply IH].
      intros Hin. apply dict_setitem_values in Hin as [->|Hin]; done.
Qed.

(** [del d[k]] fails exactly on a missing key. *)
Lemma dict_delitem_None k d : dict_delitem k d = None <-> k ∉ dict_keys d.
Proof.
  unfold dict_keys. induction d as [|[k' v'] d IH]; simpl.
  - split; [intros _; apply not_elem_of_nil | done].
  - rewrite not_elem_of_cons. destruct (N.eqb_spec k' k) as [->|Hne].
    + split; [done | intros [H _]; done].
    + rewrite fmap_None, IH. split; [|by intros [_ ?]].
      intros ?; split; [by intros ->|done].
Qed.

Lemma filter_key_absent k d :
  k ∉ dict_keys d -> filter (fun kv => kv.1 <> k) d = d.
Proof.
  unfold dict_keys. induction d as [|[k0 v0] d IH]; [done|].
  rewrite fmap_cons, not_elem_of_cons. intros [Hne Hk].
  rewrite filter_cons_True by (simpl; auto). f_equal. by apply IH.
Qed.

(** On success it removes the one entry of that key and nothing else. *)
Lemma dict_delitem_Some k d d' :
  NoDup (dict_keys d) -> dict_delitem k d = Some d' ->
  d' = filter (fun kv => kv.1 <> k) d /\ length d = S (length d') /\
  dict_get k d' = None /\ sublist d' d.
Proof.
  unfold dict_keys. revert d'.
  induction d as [|[k' v'] d IH]; intros d'; [done|].
  rewrite fmap_cons, NoDup_cons. cbn [dict_delitem fst]. intros [Hk' Hnd].
  destruct (N.eqb_spec k' k) as [->|Hne].
  - intros [= <-]. rewrite filter_cons_False by (simpl; auto).
    rewrite filter_key_absent by done.
    split_and!; [done|done| |by apply sublist_cons].
    by apply dict_get_None.
  - rewrite fmap_Some. intros (d0 & Hd0 & ->).
    destruct (IH d0 Hnd Hd0) as (Hf & Hl & Hg & Hs).
    rewrite filter_cons_True by done. simpl.
    destruct (N.eqb_spec k' k); [done|].
    split_and!; [by f_equal | by rewrite Hl | done | by apply sublist_skip].
Qed.

Lemma dict_get_filter_ne k k' d :
  k <> k' -> dict_get k' (filter (fun kv => kv.1 <> k) d) = dict_get k' d.
Proof.
  intros Hne. induction d as [|[k0 v0] d IH]; [done|].
  destruct (decide (k0 = k)) as [->|Hk0].
  - rewrite filter_cons_False by (simpl; auto). simpl.
    by destruct (N.eqb_spec k k').
  - rewrite filter_cons_True by done. simpl. by rewrite IH.
Qed.
End dict_facts.

(** ** Reading the dictionary through the heap *)

Section resolve_facts.
Implicit Types (h : list ItemResponse.t) (d : dict ref) (k : UUID) (r : ref).

Lemma resolve_cons h k r d :
  resolve h ((k, r) :: d)
  = match h !! r with
    | Some o => (k, o) :: resolve h d
    | None => resolve h d
    end.
Proof. unfold resolve. simpl. by destruct (h !! r). Qed.

Lemma resolve_cons_Some h k r o d :
  h !! r = Some o -> resolve h ((k, r) :: d) = (k, o) :: resolve h d.
Proof. intros H. by rewrite resolve_cons, H. Qed.

Lemma refs_valid_cons h k r d :
  refs_valid h ((k, r) :: d) <-> r < length h /\ refs_valid h d.
Proof. unfold refs_valid, dict_values. simpl. by rewrite Forall_cons. Qed.

(** Induction over a dictionary whose references are all valid. *)
Lemma refs_valid_ind h (P : dict ref -> Prop) :
  P [] ->
  (forall k r o d, h !! r = Some o -> refs_valid h d -> P d ->
                   P ((k, r) :: d)) ->
  forall d, refs_valid h d -> P d.
Proof.
  intros Hnil Hcons d. induction d as [|[k r] d IH]; [done|].
  rewrite refs_valid_cons. intros [Hr Hd].
  destruct (lookup_lt_is_Some_2 h r Hr) as [o Ho]. eauto.
Qed.

Lemma resolve_keys h d :
  refs_valid h d -> dict_keys (resolve h d) = dict_keys d.
Proof.
  intros Hv. induction Hv as [|k r o d Ho _ IH] using refs_valid_ind; [done|].
  rewrite (resolve_cons_Some _ _ _ o) by done.
  unfold dict_keys in *. rewrite !fmap_cons. by f_equal.
Qed.

Lemma resolve_length h d :
  refs_valid h d -> length (resolve h d) = length d.
Proof.
  intros Hv. apply resolve_keys in Hv. unfold dict_keys in Hv.
  by rewrite <- (length_fmap fst), Hv, length_fmap.
Qed.

Lemma resolve_values h d :
  refs_valid h d ->
  Forall2 (fun r o => h !! r = Some o)
          (dict_values d) (dict_values (resolve h d)).
Proof.
  intros Hv. induction Hv as [|k r o d Ho _ IH] using refs_valid_ind.
  - constructor.
  - rewrite (resolve_cons_Some _ _ _ o) by done.
    unfold dict_values in *. rewrite !fmap_cons. by constructor.
Qed.

Lemma resolve_get h k d :
  refs_valid h d ->
  dict_get k (resolve h d) = dict_get k d ≫= (fun r => h !! r).
Proof.
  intros Hv. induction Hv as [|k' r o d Ho _ IH] using refs_valid_ind; [done|].
  rewrite (resolve_cons_Some _ _ _ o) by done. simpl.
  by destruct (N.eqb_spec k' k).
Qed.

(** Allocation leaves the existing entries as they are. *)
Lemma resolve_heap_app h h' d :
  refs_valid h d -> resolve (h ++ h') d = resolve h d.
Proof.
  intros Hv. induction Hv as [|k r o d Ho _ IH] using refs_valid_ind; [done|].
  rewrite (resolve_cons_Some h _ _ o) by done.
  rewrite (resolve_cons_Some (h ++ h') _ _ o) by by apply lookup_app_l_Some.
  by rewrite IH.
Qed.

(** Storing a freshly allocated object under [k] is [d[k] = o] on the
    store. *)
Lemma resolve_setitem_new h k o d :
  refs_valid h d ->
  resolve (h ++ [o]) (dict_setitem k (length h) d)
  = dict_setitem k o (resolve h d).
Proof.
  assert (Hnew : (h ++ [o]) !! length h = Some o).
  { rewrite lookup_app_r by done. by rewrite Nat.sub_diag. }
  intros Hv. induction Hv as [|k' r o' d Ho Hd IH] using refs_valid_ind.
  - simpl. by rewrite (resolve_cons_Some _ _ _ o).
  - rewrite (resolve_cons_Some h _ _ o') by done. simpl.
    destruct (N.eqb_spec k' k) as [->|Hne].
    + rewrite (resolve_cons_Some _ _ _ o) by done.
      by rewrite resolve_heap_app.
    + rewrite (resolve_cons_Some _ _ _ o') by by apply lookup_app_l_Some.
      by rewrite IH.
Qed.

Lemma resolve_alter_absent g h r d :
  r ∉ dict_values d -> resolve (alter g r h) d = resolve h d.
Proof.
  unfold dict_values. induction d as [|[k r'] d IH]; [done|].
  rewrite fmap_cons, not_elem_of_cons. simpl. intros [Hne Hr].
  rewrite !resolve_cons, list_lookup_alter_ne by done. by rewrite IH.
Qed.

(** Mutating the object stored under [k] is [d[k] = g o] on the store:
    no other entry shares the object. *)
Lemma resolve_alter g h k r o d :
  refs_valid h d -> NoDup (dict_values d) ->
  dict_get k d = Some r -> h !! r = Some o ->
  resolve (alter g r h) d = dict_setitem k (g o) (resolve h d).
Proof.
  intros Hv Hnd Hget Hr. revert Hnd Hget.
  induction Hv as [|k' r' o' d Ho _ IH] using refs_valid_ind; [done|].
  unfold dict_values. rewrite fmap_cons, NoDup_cons. simpl.
  intros [Hr' Hnd].
  rewrite (resolve_cons_Some h _ _ o') by done. simpl.
  destruct (N.eqb_spec k' k) as [->|Hne].
  - intros [= ->]. assert (o' = o) as -> by congruence.
    rewrite resolve_cons, list_lookup_alter_eq, Hr. simpl.
    by rewrite resolve_alter_absent.
  - intros Hget. assert (r' <> r) as Hrr.
    { intros ->. apply Hr'. apply dict_get_Some_elem in Hget.
      apply list_elem_of_fmap. by exists (k, r). }
    rewrite resolve_cons, list_lookup_alter_ne, Ho by done.
    by rewrite IH.
Qed.

Lemma resolve_delitem h k d :
  refs_valid h d ->
  dict_delitem k (resolve h d) = resolve h <$> dict_delitem k d.
Proof.
  intros Hv. induction Hv as [|k' r o d Ho _ IH] using refs_valid_ind; [done|].
  rewrite (resolve_cons_Some h _ _ o) by done. simpl.
  destruct (N.eqb_spec k' k) as [->|Hne]; [done|].
  rewrite IH. destruct (dict_delitem k d); simpl; [|done].
  by rewrite (resolve_cons_Some h _ _ o).
Qed.
End resolve_facts.

(** ** What each route does to the world *)

Section route_facts.
Implicit Types (w : World) (k : UUID) (b : Body).

Lemma validate_nonempty t od :
  t <> "" ->
  ItemCreate_validate (mkBody (Some t) od)
  = inr (ItemCreate.mk t (default false od)).
Proof. intros Ht. by destruct t. Qed.

Lemma validate_empty od :
  ItemCreate_validate (mkBody (Some "") od)
  = inl (RequestValidationError "text" "string_too_short").
Proof. done. Qed.

Lemma validate_inr b item :
  ItemCreate_validate b = inr item -> ItemCreate.text item <> "".
Proof.
  unfold ItemCreate_validate. destruct (body_text b) as [t|]; [|done].
  destruct t; [done|]. by intros [= <-].
Qed.

Lemma serialize_list_run w rs os :
  Forall2 (fun r o => heap w !! r = Some o) rs os ->
  serialize_list rs w = (Return os, w).
Proof.
  induction 1 as [|r o rs os Hr _ IH]; [done|].
  simpl. unfold bind, serialize. by rewrite Hr, IH.
Qed.

Lemma list_slice_Forall2 {A B} (P : A -> B -> Prop) l l' start stop :
  Forall2 P l l' -> Forall2 P (list_slice l start stop) (list_slice l' start stop).
Proof.
  intros H. unfold list_slice. rewrite (Forall2_length _ _ _ H).
  by apply Forall2_take, Forall2_drop.
Qed.

(** *** Well-formedness is kept *)

Lemma wf_init : wf World_init.
Proof. repeat split; constructor. Qed.

Lemma wf_create w k o :
  wf w ->
  wf {| heap := heap w ++ [o];
        items_db := dict_setitem k (length (heap w)) (items_db w) |}.
Proof.
  intros (Hk & Hv & Hr). unfold wf, refs_valid in *. simpl.
  assert (Hfresh : length (heap w) ∉ dict_values (items_db w)).
  { intros Hin. eapply Forall_forall in Hv; [|done]. lia. }
  split_and!.
  - by apply dict_setitem_keys_NoDup.
  - apply Forall_forall. intros r Hin. rewrite length_app. simpl.
    apply dict_setitem_values in Hin as [->|Hin]; [lia|].
    eapply Forall_forall in Hv; [|done]. lia.
  - by apply dict_setitem_values_NoDup.
Qed.

Lemma wf_alter w g r :
  wf w -> wf {| heap := alter g r (heap w); items_db := items_db w |}.
Proof.
  intros (Hk & Hv & Hr). unfold wf, refs_valid in *. simpl.
  by rewrite length_alter.
Qed.

Lemma wf_delitem w k d' :
  wf w -> dict_delitem k (items_db w) = Some d' ->
  wf {| heap := heap w; items_db := d' |}.
Proof.
  intros (Hk & Hv & Hr) Hdel. unfold wf, refs_valid in *. simpl.
  apply dict_delitem_Some in Hdel as (_ & _ & _ & Hsub); [|done].
  unfold dict_keys, dict_values in *. split_and!.
  - apply (sublist_NoDup d'.*1 (items_db w).*1); [done|by apply fmap_sublist].
  - apply Forall_forall. intros r Hin. eapply Forall_forall in Hv; [done|].
    eapply elem_of_sublist; [done|]. by apply fmap_sublist.
  - apply (sublist_NoDup d'.*2 (items_db w).*2); [done|by apply fmap_sublist].
Qed.

(** *** Creation *)

Lemma POST_items_run w uuid4 b item_in :
  ItemCreate_validate b = inr item_in ->
  let new_item := ItemResponse.mk uuid4 (ItemCreate.text item_in)
                                  (ItemCreate.is_done item_in) in
  POST_items uuid4 b w
  = (Return new_item,
     {| heap := heap w ++ [new_item];
        items_db := dict_setitem uuid4 (length (heap w)) (items_db w) |}).
Proof.
  intros Hb. unfold POST_items. rewrite Hb.
  unfold create_item, bind, ItemResponse_new, items_db_setitem, ret,
    serialize. simpl.
  rewrite lookup_app_r by done. by rewrite Nat.sub_diag.
Qed.

(** A body without [is_done] creates an item that is not done. *)
Lemma POST_items_default_is_done w uuid4 text :
  text <> "" ->
  (POST_items uuid4 (mkBody (Some text) None) w).1
  = Return (ItemResponse.mk uuid4 text false).
Proof.
  intros Ht. by rewrite (POST_items_run _ _ _ _ (validate_nonempty _ None Ht)).
Qed.

Lemma POST_items_invalid w uuid4 b e :
  ItemCreate_validate b = inl e -> POST_items uuid4 b w = (Raise e, w).
Proof. intros Hb. unfold POST_items. by rewrite Hb. Qed.

(** *** Listing *)

Lemma GET_items_run w skip limit :
  wf w ->
  GET_items skip limit w
  = (Return (list_slice (dict_values (store w)) skip (skip + limit)), w).
Proof.
  intros (_ & Hv & _). unfold GET_items, list_items, bind, items_db_values, ret.
  apply serialize_list_run, list_slice_Forall2. by apply resolve_values.
Qed.

(** *** Lookup *)

Lemma store_get w k :
  wf w ->
  dict_get k (store w) = dict_get k (items_db w) ≫= (fun r => heap w !! r).
Proof. intros (_ & Hv & _). by apply resolve_get. Qed.

Lemma GET_item_run w k :
  wf w ->
  GET_item k w
  = (match dict_get k (store w) with
     | Some item => Return item
     | None => Raise (HTTPException HTTP_404_NOT_FOUND (not_found_detail k))
     end, w).
Proof.
  intros Hwf. rewrite store_get by done.
  unfold GET_item, get_item, bind, items_db_get, serialize.
  destruct (dict_get k (items_db w)) as [r|] eqn:Hget; simpl; [|done].
  destruct Hwf as (_ & Hv & _).
  apply dict_get_Some_elem in Hget.
  assert (r < length (heap w)) as Hr.
  { eapply Forall_forall in Hv; [done|].
    apply list_elem_of_fmap. by exists (k, r). }
  by destruct (lookup_lt_is_Some_2 _ _ Hr) as [o ->].
Qed.

(** *** Update *)

Lemma PUT_item_invalid w k b e :
  ItemCreate_validate b = inl e -> PUT_item k b w = (Raise e, w).
Proof. intros Hb. unfold PUT_item. by rewrite Hb. Qed.

Lemma PUT_item_missing w k b item_update :
  wf w -> ItemCreate_validate b = inr item_update ->
  dict_get k (store w) = None ->
  PUT_item k b w
  = (Raise (HTTPException HTTP_404_NOT_FOUND (not_found_detail k)), w).
Proof.
  intros Hwf Hb Hget. unfold PUT_item. rewrite Hb.
  apply dict_get_None in Hget. destruct Hwf as (_ & Hv & _).
  unfold store in Hget. rewrite resolve_keys in Hget by done.
  apply dict_get_None in Hget.
  unfold update_item, bind, items_db_get. by rewrite Hget.
Qed.

Lemma PUT_item_found w k b item_update old :
  wf w -> ItemCreate_validate b = inr item_update ->
  dict_get k (store w) = Some old ->
  exists r,
    dict_get k (items_db w) = Some r /\ heap w !! r = Some old /\
    PUT_item k b w
    = (Return (updated item_update old),
       {| heap := alter (updated item_update) r (heap w);
          items_db := items_db w |}).
Proof.
  intros Hwf Hb Hget. rewrite store_get in Hget by done.
  apply bind_Some in Hget as (r & Hr & Ho). exists r. split_and!; [done..|].
  unfold PUT_item. rewrite Hb.
  unfold update_item, bind, items_db_get, setattr_text, setattr_is_done,
    items_db_setitem, ret, serialize. rewrite Hr. simpl.
  rewrite list_alter_alter_eq, list_lookup_alter_eq, Ho.
  by rewrite dict_setitem_same.
Qed.

(** *** Deletion *)

Lemma DELETE_item_missing w k :
  wf w -> dict_get k (store w) = None ->
  DELETE_item k w
  = (Raise (HTTPException HTTP_404_NOT_FOUND (not_found_detail k)), w).
Proof.
  intros (_ & Hv & _) Hget. apply dict_get_None in Hget.
  unfold store in Hget. rewrite resolve_keys in Hget by done.
  apply dict_get_None in Hget.
  unfold DELETE_item, delete_item, bind, items_db_contains, dict_contains.
  by rewrite Hget.
Qed.

Lemma DELETE_item_found w k old :
  wf w -> dict_get k (store w) = Some old ->
  exists d',
    dict_delitem k (items_db w) = Some d' /\
    dict_delitem k (store w) = Some (resolve (heap w) d') /\
    DELETE_item k w = (Return tt, {| heap := heap w; items_db := d' |}).
Proof.
  intros Hwf Hget. pose proof Hwf as (_ & Hv & _).
  rewrite store_get in Hget by done.
  apply bind_Some in Hget as (r & Hr & Ho).
  destruct (dict_delitem k (items_db w)) as [d'|] eqn:Hdel.
  - exists d'. split_and!; [done| |].
    + unfold store. by rewrite resolve_delitem, Hdel.
    + unfold DELETE_item, delete_item, bind, items_db_contains,
        dict_contains, items_db_delitem. rewrite Hr. simpl. by rewrite Hdel.
  - apply dict_delitem_None, dict_get_None in Hdel. congruence.
Qed.
End route_facts.

(** ** The store after each route *)

Section store_facts.
Implicit Types (w : World) (k : UUID) (b : Body).

Lemma store_keys w : wf w -> dict_keys (store w) = dict_keys (items_db w).
Proof. intros (_ & Hv & _). by apply resolve_keys. Qed.

Lemma store_keys_NoDup w : wf w -> NoDup (dict_keys (store w)).
Proof. intros Hwf. rewrite store_keys by done. apply Hwf. Qed.

Lemma store_length w : wf w -> length (store w) = length (items_db w).
Proof. intros (_ & Hv & _). by apply resolve_length. Qed.

Lemma store_elem_get w k item :
  wf w -> (k, item) ∈ store w <-> dict_get k (store w) = Some item.
Proof.
  intros Hwf. split; [|apply dict_get_Some_elem].
  apply dict_elem_get. by apply store_keys_NoDup.
Qed.

Lemma POST_items_store w uuid4 b item_in :
  wf w -> ItemCreate_validate b = inr item_in ->
  store (POST_items uuid4 b w).2
  = dict_setitem uuid4
      (ItemResponse.mk uuid4 (ItemCreate.text item_in)
                       (ItemCreate.is_done item_in))
      (store w).
Proof.
  intros (_ & Hv & _) Hb. rewrite (POST_items_run _ _ _ _ Hb).
  unfold store. simpl. by apply resolve_setitem_new.
Qed.

Lemma POST_items_wf w uuid4 b : wf w -> wf (POST_items uuid4 b w).2.
Proof.
  intros Hwf. destruct (ItemCreate_validate b) as [e|item_in] eqn:Hb.
  - by rewrite (POST_items_invalid _ _ _ _ Hb).
  - rewrite (POST_items_run _ _ _ _ Hb). by apply wf_create.
Qed.

Lemma PUT_item_store w k b item_update old :
  wf w -> ItemCreate_validate b = inr item_update ->
  dict_get k (store w) = Some old ->
  (PUT_item k b w).1 = Return (updated item_update old) /\
  store (PUT_item k b w).2
  = dict_setitem k (updated item_update old) (store w).
Proof.
  intros Hwf Hb Hget.
  destruct (PUT_item_found _ _ _ _ _ Hwf Hb Hget) as (r & Hr & Ho & ->).
  split; [done|]. destruct Hwf as (_ & Hv & Hnd).
  unfold store. simpl. by apply resolve_alter.
Qed.

Lemma PUT_item_wf w k b : wf w -> wf (PUT_item k b w).2.
Proof.
  intros Hwf. destruct (ItemCreate_validate b) as [e|item_update] eqn:Hb.
  - by rewrite (PUT_item_invalid _ _ _ _ Hb).
  - destruct (dict_get k (store w)) as [old|] eqn:Hget.
    + destruct (PUT_item_found _ _ _ _ _ Hwf Hb Hget) as (r & _ & _ & ->).
      by apply wf_alter.
    + by rewrite (PUT_item_missing _ _ _ _ Hwf Hb Hget).
Qed.

Lemma DELETE_item_wf w k : wf w -> wf (DELETE_item k w).2.
Proof.
  intros Hwf. destruct (dict_get k (store w)) as [old|] eqn:Hget.
  - destruct (DELETE_item_found _ _ _ Hwf Hget) as (d' & Hdel & _ & ->).
    by eapply wf_delitem.
  - by rewrite (DELETE_item_missing _ _ Hwf Hget).
Qed.

(** Wrapping a result into a reply does not touch the world. *)
Lemma bind_ret_world {A B} (m : Handler A) (f : A -> B) w :
  (bind m (fun a => ret (f a)) w).2 = (m w).2.
Proof. unfold bind, ret. by destruct (m w) as [[a|e|] w']. Qed.

Lemma serve_world rq w :
  (serve rq w).2
  = match rq with
    | Create uuid4 body => (POST_items uuid4 body w).2
    | List skip limit => (GET_items skip limit w).2
    | Get item_id => (GET_item item_id w).2
    | Update item_id body => (PUT_item item_id body w).2
    | Delete item_id => (DELETE_item item_id w).2
    end.
Proof. destruct rq; apply bind_ret_world. Qed.

Lemma serve_wf rq w : wf w -> wf (serve rq w).2.
Proof.
  intros Hwf. rewrite serve_world. destruct rq.
  - by apply POST_items_wf.
  - by rewrite GET_items_run.
  - by rewrite GET_item_run.
  - by apply PUT_item_wf.
  - by apply DELETE_item_wf.
Qed.

Lemma reachable_wf w : reachable w -> wf w.
Proof. induction 1; [apply wf_init | by apply serve_wf]. Qed.

Lemma serve_all_reachable rqs w : reachable w -> reachable (serve_all rqs w).
Proof.
  revert w. induction rqs as [|rq rqs IH]; intros w Hw; [done|].
  simpl. apply IH. by constructor.
Qed.
End store_facts.

(** ** Slices *)

Section slice_facts.
Context {A : Type}.
Implicit Types (l : list A).

(** With non-negative bounds a slice drops [skip] elements and keeps at
    most [limit] of the rest. *)
Lemma list_slice_nonneg l (skip limit : Z) :
  (0 <= skip)%Z -> (0 <= limit)%Z ->
  list_slice l skip (skip + limit)
  = take (Z.to_nat limit) (drop (Z.to_nat skip) l).
Proof.
  intros Hs Hl. unfold list_slice, slice_adjust.
  destruct (Z.ltb_spec skip 0); [lia|].
  destruct (Z.ltb_spec (skip + limit) 0); [lia|].
  destruct (Z.ltb_spec (Z.of_nat (length l)) skip);
    destruct (Z.ltb_spec (Z.of_nat (length l)) (skip + limit)); try lia.
  - rewrite Nat2Z.id, !drop_ge by lia. by rewrite !take_nil.
  - rewrite !take_ge; [done|rewrite length_drop; lia..].
  - f_equal. lia.
Qed.

Lemma drop_last l x : last l = Some x -> drop (length l - 1) l = [x].
Proof.
  intros (l' & ->)%last_Some. rewrite length_app. simpl.
  replace (length l' + 1 - 1) with (length l') by lia.
  by rewrite drop_app_length.
Qed.

(** [l[-1:9]] is the last element for one to nine elements ... *)
Lemma list_slice_last l x :
  last l = Some x -> length l <= 9 -> list_slice l (-1) (-1 + 10) = [x].
Proof.
  intros Hlast Hlen. unfold list_slice, slice_adjust.
  assert (0 < length l).
  { destruct l; [done|simpl; lia]. }
  destruct (Z.ltb_spec (-1) 0); [|lia].
  destruct (Z.ltb_spec (-1 + Z.of_nat (length l)) 0); [lia|].
  destruct (Z.ltb_spec (-1 + 10) 0); [lia|].
  replace (Z.to_nat (-1 + Z.of_nat (length l))) with (length l - 1) by lia.
  rewrite (drop_last _ _ Hlast).
  destruct (Z.ltb_spec (Z.of_nat (length l)) (-1 + 10)).
  - by replace (Z.to_nat (Z.of_nat (length l) - (-1 + Z.of_nat (length l))))
      with 1 by lia.
  - by replace (Z.to_nat (-1 + 10 - (-1 + Z.of_nat (length l))))
      with 1 by lia.
Qed.

(** ... and empty from ten elements on. *)
Lemma list_slice_last_empty l :
  10 <= length l -> list_slice l (-1) (-1 + 10) = [].
Proof.
  intros Hlen. unfold list_slice, slice_adjust.
  destruct (Z.ltb_spec (-1) 0); [|lia].
  destruct (Z.ltb_spec (-1 + Z.of_nat (length l)) 0); [lia|].
  destruct (Z.ltb_spec (-1 + 10) 0); [lia|].
  destruct (Z.ltb_spec (Z.of_nat (length l)) (-1 + 10)); [lia|].
  by replace (Z.to_nat (-1 + 10 - (-1 + Z.of_nat (length l)))) with 0 by lia.
Qed.
End slice_facts.

(** ** Creation *)



(** ** The store invariant *)

Section invariant.
Implicit Types (w : World) (k : UUID).

Lemma Forall_dict_setitem {V} (P : UUID * V -> Prop) k v (d : dict V) :
  Forall P d -> P (k, v) -> Forall P (dict_setitem k v d).
Proof.
  intros Hd Hkv. induction Hd as [|[k' v'] d Hk' Hd IH]; simpl.
  - by constructor.
  - destruct (N.eqb_spec k' k) as [->|Hne]; by constructor.
Qed.

Lemma store_inv_init : store_inv World_init.
Proof. split; constructor. Qed.

Lemma store_inv_ids w :
  store_inv w -> NoDup (ItemResponse.id <$> dict_values (store w)).
Proof.
  intros [Hok Hnd]. unfold dict_keys, dict_values in *.
  replace (ItemResponse.id <$> (store w).*2) with (store w).*1; [done|].
  induction Hok as [|[k item] d [_ Hid] _ IH]; [done|].
  rewrite !fmap_cons. simpl in *. rewrite Hid, IH; [done|].
  by apply NoDup_cons in Hnd as [_ ?].
Qed.

Lemma store_inv_serve rq w : wf w -> store_inv w -> store_inv (serve rq w).2.
Proof.
  intros Hwf [Hok Hnd]. split; [|by apply store_keys_NoDup, serve_wf].
  rewrite serve_world. destruct rq as [u b| | |k b|k].
  - destruct (ItemCreate_validate b) as [e|item_in] eqn:Hb.
    + by rewrite (POST_items_invalid _ _ _ _ Hb).
    + rewrite (POST_items_store _ _ _ _ Hwf Hb).
      apply Forall_dict_setitem; [done|].
      split; [|done]. simpl. by eapply validate_inr.
  - by rewrite GET_items_run.
  - by rewrite GET_item_run.
  - destruct (ItemCreate_validate b) as [e|item_update] eqn:Hb.
    + by rewrite (PUT_item_invalid _ _ _ _ Hb).
    + destruct (dict_get k (store w)) as [old|] eqn:Hget.
      * destruct (PUT_item_store _ _ _ _ _ Hwf Hb Hget) as [_ ->].
        apply Forall_dict_setitem; [done|].
        split; simpl; [by eapply validate_inr|].
        apply dict_get_Some_elem in Hget.
        eapply Forall_forall in Hok; [|done]. apply Hok.
      * by rewrite (PUT_item_missing _ _ _ _ Hwf Hb Hget).
  - destruct (dict_get k (store w)) as [old|] eqn:Hget.
    + destruct (DELETE_item_found _ _ _ Hwf Hget) as (d' & _ & Hdel & ->).
      unfold store at 1. simpl.
      apply dict_delitem_Some in Hdel as (_ & _ & _ & Hsub); [|done].
      apply Forall_forall. intros kv Hin.
      eapply Forall_forall in Hok; [done|]. by eapply elem_of_sublist.
    + by rewrite (DELETE_item_missing _ _ Hwf Hget).
Qed.
End invariant.

(** C2: every item of the store has a non-empty [text] and carries as its
    [id] the key it is stored under, so identifiers are unique across the
    stored items; this holds in every reachable world, and serving any
    request (create, list, get, update, delete) keeps it. *)
Theorem store_invariant :
  (forall w, reachable w ->
     store_inv w /\ NoDup (ItemResponse.id <$> dict_values (store w))) /\
  (forall rq w, wf w -> store_inv w -> store_inv (serve rq w).2).
Proof.
  split; [|apply store_inv_serve].
  intros w Hw. cut (store_inv w); [by auto using store_inv_ids|].
  induction Hw as [|rq w Hw IH]; [apply store_inv_init|].
  by apply store_inv_serve; [apply reachable_wf|].
Qed.

Lemma store_invariant_witness :
  store_inv world_ab /\
  store_inv (serve (Update uuid_a (body_of "buy oat milk" true)) world_ab).2.
Proof.
  assert (Hr : reachable world_ab).
  { apply serve_all_reachable. constructor. }
  pose proof (proj1 (proj1 store_invariant world_ab Hr)) as Hinv.
  split; [done|].
  apply (proj2 store_invariant); [by apply reachable_wf|done].
Defined.

(** ** Listing *)

(** C3: for non-negative [skip] and [limit], [list_items] returns the
    stored items in insertion order with the first [skip] dropped and at
    most [limit] kept; the result is empty when [skip] is at least the
    number of items and when [limit] is 0; the world is left as it was. *)
Theorem list_items_pagination w skip limit :
  wf w -> (0 <= skip)%Z -> (0 <= limit)%Z ->
  let all_items := dict_values (store w) in
  GET_items skip limit w
  = (Return (take (Z.to_nat limit) (drop (Z.to_nat skip) all_items)), w) /\
  length (take (Z.to_nat limit) (drop (Z.to_nat skip) all_items))
  <= Z.to_nat limit /\
  ((Z.of_nat (length all_items) <= skip)%Z ->
   GET_items skip limit w = (Return [], w)) /\
  (limit = 0%Z -> GET_items skip limit w = (Return [], w)).
Proof.
  intros Hwf Hs Hl all_items.
  assert (Hrun : GET_items skip limit w
    = (Return (take (Z.to_nat limit) (drop (Z.to_nat skip) all_items)), w)).
  { rewrite GET_items_run by done. by rewrite list_slice_nonneg. }
  split_and!; [done| | |].
  - rewrite length_take. lia.
  - intros Hge. rewrite Hrun, drop_ge by lia. by rewrite take_nil.
  - intros ->. by rewrite Hrun.
Qed.

Lemma list_items_pagination_witness :
  wf world_ab /\ (0 <= 1)%Z /\ (0 <= 5)%Z /\
  GET_items 1 5 world_ab
  = (Return [ItemResponse.mk uuid_b "walk dog" true], world_ab).
Proof.
  assert (Hwf : wf world_ab).
  { apply reachable_wf, serve_all_reachable. constructor. }
  assert (H1 : (0 <= 1)%Z) by lia. assert (H5 : (0 <= 5)%Z) by lia.
  split_and!; [done..|].
  apply (list_items_pagination world_ab 1 5 Hwf H1 H5).
Defined.

(** ** Lookup *)

(** C4: [get_item] returns the stored item of the given identifier when
    there is one, and fails with the 404 whose message names the
    identifier exactly when there is none; the world is left as it was in
    both cases. *)
Theorem get_item_found_or_404 w item_id :
  wf w ->
  (forall item, (item_id, item) ∈ store w ->
                GET_item item_id w = (Return item, w)) /\
  (item_id ∉ dict_keys (store w) ->
   GET_item item_id w
   = (Raise (HTTPException 404
               ("Item with ID " +:+ (UUID_str item_id +:+ " not found"))),
      w)) /\
  (forall e, (GET_item item_id w).1 = Raise e ->
             (item_id ∉ dict_keys (store w)) /\ e = NotFoundError item_id) /\
  (GET_item item_id w).2 = w /\
  (forall k, UUID_in_range item_id -> UUID_in_range k ->
             NotFoundError k = NotFoundError item_id -> k = item_id).
Proof.
  intros Hwf. rewrite GET_item_run by done. split_and!.
  - intros item Hin. apply store_elem_get in Hin; [|done]. by rewrite Hin.
  - intros Hk. apply dict_get_None in Hk. by rewrite Hk.
  - intros e. destruct (dict_get item_id (store w)) eqn:Hget; simpl; [done|].
    intros [= <-]. split; [by apply dict_get_None|done].
  - done.
  - intros k Hid Hk Heq. apply not_found_detail_inj; [done..|].
    exact (f_equal (fun e => match e with
                             | HTTPException _ detail => detail
                             | _ => ""
                             end) Heq).
Qed.

Lemma get_item_found_or_404_witness :
  wf world_ab /\
  GET_item uuid_b world_ab
  = (Return (ItemResponse.mk uuid_b "walk dog" true), world_ab) /\
  GET_item uuid_c world_ab
  = (Raise (HTTPException 404
      "Item with ID 9c858901-d8a1-4a57-b0f3-a1e2d3c4b503 not found"), world_ab).
Proof.
  assert (Hwf : wf world_ab).
  { apply reachable_wf, serve_all_reachable. constructor. }
  split_and!; [done| |].
  - apply (get_item_found_or_404 world_ab uuid_b Hwf).
    vm_compute. apply elem_of_cons. right. apply elem_of_cons. by left.
  - apply (get_item_found_or_404 world_ab uuid_c Hwf).
    vm_compute. intros H. repeat (apply elem_of_cons in H as [H|H]; [done|]).
    by apply elem_of_nil in H.
Defined.

(** ** Update *)

(** C5: for an identifier that is in the store and any non-empty [text]
    and boolean [is_done], [update_item] replaces the item's [text] and
    [is_done] by the given values and leaves its [id] as it was, returns
    the updated item, and a following [get_item] returns that same item;
    for an identifier that is not in the store it fails with the 404. *)
Theorem update_item_replaces w item_id text is_done :
  wf w -> text <> "" ->
  (forall old, (item_id, old) ∈ store w ->
     let new := ItemResponse.mk (ItemResponse.id old) text is_done in
     let w' := (PUT_item item_id (body_of text is_done) w).2 in
     (PUT_item item_id (body_of text is_done) w).1 = Return new /\
     (item_id, new) ∈ store w' /\
     GET_item item_id w' = (Return new, w')) /\
  (item_id ∉ dict_keys (store w) ->
   PUT_item item_id (body_of text is_done) w
   = (Raise (NotFoundError item_id), w)).
Proof.
  intros Hwf Ht.
  pose proof (validate_nonempty text (Some is_done) Ht) as Hb.
  split.
  - intros old Hin new w'. apply store_elem_get in Hin; [|done].
    destruct (PUT_item_store _ _ _ _ _ Hwf Hb Hin) as [Hret Hst].
    assert (Hwf' : wf w') by by apply PUT_item_wf.
    assert (Hget : dict_get item_id (store w') = Some new).
    { unfold w', body_of. rewrite Hst. apply dict_get_setitem_eq. }
    split_and!; [done| |].
    + by apply store_elem_get.
    + rewrite GET_item_run by done. by rewrite Hget.
  - intros Hk. apply dict_get_None in Hk.
    by apply (PUT_item_missing _ _ _ _ Hwf Hb).
Qed.

Lemma update_item_replaces_witness :
  wf world_ab /\ "buy oat milk" <> "" /\
  (PUT_item uuid_a (body_of "buy oat milk" true) world_ab).1
  = Return (ItemResponse.mk uuid_a "buy oat milk" true) /\
  PUT_item uuid_c (body_of "buy oat milk" true) world_ab
  = (Raise (NotFoundError uuid_c), world_ab).
Proof.
  assert (Hwf : wf world_ab).
  { apply reachable_wf, serve_all_reachable. constructor. }
  assert (Ht : "buy oat milk" <> "") by done.
  split_and!; [done..| |].
  - apply (proj1 (update_item_replaces world_ab uuid_a _ true Hwf Ht)
             (ItemResponse.mk uuid_a "buy milk" false)).
    vm_compute. apply elem_of_cons. by left.
  - apply (update_item_replaces world_ab uuid_c _ true Hwf Ht).
    vm_compute. intros H. repeat (apply elem_of_cons in H as [H|H]; [done|]).
    by apply elem_of_nil in H.
Defined.

(** C8: a successful [update_item] changes the entry of the given
    identifier only: the entry of every other identifier is what it was,
    and the identifiers in the store, in their order, are what they
    were. *)
Theorem update_item_frame w item_id text is_done :
  wf w -> text <> "" -> item_id ∈ dict_keys (store w) ->
  let w' := (PUT_item item_id (body_of text is_done) w).2 in
  (exists new, (PUT_item item_id (body_of text is_done) w).1 = Return new) /\
  (forall k, k <> item_id -> dict_get k (store w') = dict_get k (store w)) /\
  dict_keys (store w') = dict_keys (store w).
Proof.
  intros Hwf Ht Hin w'.
  pose proof (validate_nonempty text (Some is_done) Ht) as Hb.
  pose proof Hin as [old Hget]%dict_get_is_Some.
  destruct (PUT_item_store _ _ _ _ _ Hwf Hb Hget) as [Hret Hst].
  unfold w', body_of. rewrite Hst. split_and!.
  - by eexists.
  - intros k Hne. by apply dict_get_setitem_ne.
  - by apply dict_setitem_keys.
Qed.

Lemma update_item_frame_witness :
  wf world_ab /\ "buy oat milk" <> "" /\
  dict_get uuid_b
    (store (PUT_item uuid_a (body_of "buy oat milk" true) world_ab).2)
  = dict_get uuid_b (store world_ab) /\
  dict_keys (store (PUT_item uuid_a (body_of "buy oat milk" true) world_ab).2)
  = dict_keys (store world_ab).
Proof.
  assert (Hwf : wf world_ab).
  { apply reachable_wf, serve_all_reachable. constructor. }
  assert (Ht : "buy oat milk" <> "") by done.
  assert (Hin : uuid_a ∈ dict_keys (store world_ab)).
  { vm_compute. apply elem_of_cons. by left. }
  pose proof (update_item_frame world_ab uuid_a _ true Hwf Ht Hin)
    as (_ & Hother & Hkeys).
  split_and!; [done..| |done]. by apply Hother.
Defined.

(** ** Deletion *)

(** C6: for an identifier that is in the store, [delete_item] removes the
    entry of that identifier and no other, so the store has one entry
    less and a following [get_item] fails with the 404; for an identifier
    that is not in the store it fails with the 404 and the world is left
    as it was. *)
Theorem delete_item_removes w item_id :
  wf w ->
  (item_id ∈ dict_keys (store w) ->
     let w' := (DELETE_item item_id w).2 in
     (DELETE_item item_id w).1 = Return tt /\
     store w' = filter (fun kv => kv.1 <> item_id) (store w) /\
     (forall k, k <> item_id -> dict_get k (store w') = dict_get k (store w)) /\
     S (length (store w')) = length (store w) /\
     GET_item item_id w' = (Raise (NotFoundError item_id), w')) /\
  (item_id ∉ dict_keys (store w) ->
   DELETE_item item_id w = (Raise (NotFoundError item_id), w)).
Proof.
  intros Hwf. split.
  - intros [old Hget]%dict_get_is_Some w'.
    assert (Hwf' : wf w') by by apply DELETE_item_wf.
    destruct (DELETE_item_found _ _ _ Hwf Hget) as (d' & _ & Hdel & Hrun).
    apply dict_delitem_Some in Hdel as (Hf & Hlen & Hnone & _);
      [|by apply store_keys_NoDup].
    assert (Hst : store w' = resolve (heap w) d').
    { unfold w'. by rewrite Hrun. }
    split_and!.
    + by rewrite Hrun.
    + by rewrite Hst.
    + intros k Hne. rewrite Hst, Hf. by apply dict_get_filter_ne.
    + by rewrite Hst.
    + rewrite GET_item_run by done. by rewrite Hst, Hnone.
  - intros Hk. apply dict_get_None in Hk. by apply DELETE_item_missing.
Qed.

Lemma delete_item_removes_witness :
  wf world_ab /\
  store (DELETE_item uuid_a world_ab).2
  = [(uuid_b, ItemResponse.mk uuid_b "walk dog" true)] /\
  DELETE_item uuid_c world_ab = (Raise (NotFoundError uuid_c), world_ab).
Proof.
  assert (Hwf : wf world_ab).
  { apply reachable_wf, serve_all_reachable. constructor. }
  split_and!; [done| |].
  - assert (Hin : uuid_a ∈ dict_keys (store world_ab)).
    { vm_compute. apply elem_of_cons. by left. }
    destruct (proj1 (delete_item_removes world_ab uuid_a Hwf) Hin)
      as (_ & -> & _). by vm_compute.
  - apply (delete_item_removes world_ab uuid_c Hwf).
    vm_compute. intros H. repeat (apply elem_of_cons in H as [H|H]; [done|]).
    by apply elem_of_nil in H.
Defined.

(** ** Failures *)

Section failures.
Implicit Types (w : World) (k : UUID) (b : Body).

Lemma serialize_world r w :
  (serialize r w).2 = w /\ forall e, (serialize r w).1 <> Raise e.
Proof. unfold serialize. by destruct (heap w !! r). Qed.

Lemma serialize_list_world rs w :
  (serialize_list rs w).2 = w /\ forall e, (serialize_list rs w).1 <> Raise e.
Proof.
  induction rs as [|r rs [IHw IHe]]; [done|].
  simpl. unfold bind, serialize.
  destruct (heap w !! r); [|done].
  destruct (serialize_list rs w) as [[os|e|] w']; simpl in *; [done| |done].
  by destruct (IHe e).
Qed.

Lemma dict_contains_delitem {V} k (d : dict V) :
  dict_contains k d = true -> is_Some (dict_delitem k d).
Proof.
  rewrite dict_contains_true, <- not_eq_None_Some, dict_delitem_None. auto.
Qed.

Lemma POST_items_raise w uuid4 b e :
  (POST_items uuid4 b w).1 = Raise e ->
  (POST_items uuid4 b w).2 = w /\ ValidationError e.
Proof.
  destruct (ItemCreate_validate b) as [e'|item_in] eqn:Hb.
  - rewrite (POST_items_invalid _ _ _ _ Hb). simpl. intros [= <-].
    split; [done|]. revert Hb. unfold ItemCreate_validate.
    destruct (body_text b) as [t|]; [destruct (_ <? _)|];
      intros [= <-]; by do 2 eexists.
  - by rewrite (POST_items_run _ _ _ _ Hb).
Qed.

Lemma GET_items_raise w skip limit e :
  (GET_items skip limit w).1 <> Raise e.
Proof.
  unfold GET_items, list_items, bind, items_db_values, ret.
  apply serialize_list_world.
Qed.

Lemma GET_item_raise w k e :
  (GET_item k w).1 = Raise e ->
  (GET_item k w).2 = w /\ e = NotFoundError k.
Proof.
  unfold GET_item, get_item, bind, items_db_get, raise, ret.
  destruct (dict_get k (items_db w)) as [r|]; simpl.
  - intros H. by apply serialize_world in H.
  - by intros [= <-].
Qed.

Lemma PUT_item_raise w k b e :
  (PUT_item k b w).1 = Raise e ->
  (PUT_item k b w).2 = w /\ (ValidationError e \/ e = NotFoundError k).
Proof.
  destruct (ItemCreate_validate b) as [e'|item_update] eqn:Hb.
  - rewrite (PUT_item_invalid _ _ _ _ Hb). simpl. intros [= <-].
    split; [done|]. left. revert Hb. unfold ItemCreate_validate.
    destruct (body_text b) as [t|]; [destruct (_ <? _)|];
      intros [= <-]; by do 2 eexists.
  - unfold PUT_item. rewrite Hb.
    unfold update_item, bind, items_db_get, setattr_text, setattr_is_done,
      items_db_setitem, raise, ret.
    destruct (dict_get k (items_db w)) as [r|]; simpl.
    + intros H. by apply serialize_world in H.
    + intros [= <-]. auto.
Qed.

Lemma DELETE_item_raise w k e :
  (DELETE_item k w).1 = Raise e ->
  (DELETE_item k w).2 = w /\ e = NotFoundError k.
Proof.
  unfold DELETE_item, delete_item, bind, items_db_contains, items_db_delitem,
    raise, ret.
  destruct (dict_contains k (items_db w)) eqn:Hc; simpl.
  - by destruct (dict_contains_delitem _ _ Hc) as [d' ->].
  - by intros [= <-].
Qed.

Lemma bind_ret_raise {A B} (m : Handler A) (f : A -> B) w e :
  (bind m (fun a => ret (f a)) w).1 = Raise e <-> (m w).1 = Raise e.
Proof.
  unfold bind, ret. destruct (m w) as [[a|e'|] w']; simpl; split; congruence.
Qed.
Lemma bind_ret_dangling {A B} (m : Handler A) (f : A -> B) w :
  (bind m (fun a => ret (f a)) w).1 = Dangling <-> (m w).1 = Dangling.
Proof.
  unfold bind, ret. destruct (m w) as [[a|e'|] w']; simpl; split; congruence.
Qed.

(** In a well-formed world every request returns or raises: no reference
    read by a handler or by the response model dangles. *)
Lemma serve_total rq w : wf w -> (serve rq w).1 <> Dangling.
Proof.
  intros Hwf Hd. destruct rq as [u b|s l|k|k b|k];
    apply bind_ret_dangling in Hd.
  - destruct (ItemCreate_validate b) as [e|item_in] eqn:Hb.
    + by rewrite (POST_items_invalid _ _ _ _ Hb) in Hd.
    + by rewrite (POST_items_run _ _ _ _ Hb) in Hd.
  - by rewrite GET_items_run in Hd.
  - rewrite GET_item_run in Hd by done.
    by destruct (dict_get k (store w)).
  - destruct (ItemCreate_validate b) as [e|item_update] eqn:Hb.
    + by rewrite (PUT_item_invalid _ _ _ _ Hb) in Hd.
    + destruct (dict_get k (store w)) as [old|] eqn:Hget.
      * destruct (PUT_item_found _ _ _ _ _ Hwf Hb Hget) as (r & _ & _ & Hrun).
        by rewrite Hrun in Hd.
      * by rewrite (PUT_item_missing _ _ _ _ Hwf Hb Hget) in Hd.
  - destruct (dict_get k (store w)) as [old|] eqn:Hget.
    + destruct (DELETE_item_found _ _ _ Hwf Hget) as (d' & _ & _ & Hrun).
      by rewrite Hrun in Hd.
    + by rewrite (DELETE_item_missing _ _ Hwf Hget) in Hd.
Qed.
End failures.

(** C7: a request that fails leaves the world, and so the store, exactly as
    it was, and the failure is a validation error or the 404 of an
    identifier; in particular creating with an empty [text] is refused as a
    validation error and the number of stored items does not grow. *)
Theorem failure_leaves_store w :
  (forall rq e, (serve rq w).1 = Raise e ->
     (serve rq w).2 = w /\ store (serve rq w).2 = store w /\
     (ValidationError e \/ exists item_id, e = NotFoundError item_id)) /\
  (forall uuid4 is_done,
     exists e, ValidationError e /\
       POST_items uuid4 (mkBody (Some "") is_done) w = (Raise e, w) /\
       length (store (POST_items uuid4 (mkBody (Some "") is_done) w).2)
       = length (store w)).
Proof.
  split.
  - intros rq e Hfail.
    assert (Hw : (serve rq w).2 = w /\
                 (ValidationError e \/ exists item_id, e = NotFoundError item_id)).
    { rewrite serve_world. destruct rq as [u b|s l|k|k b|k];
        apply bind_ret_raise in Hfail.
      - apply POST_items_raise in Hfail as [? ?]. auto.
      - by apply GET_items_raise in Hfail.
      - apply GET_item_raise in Hfail as [? ?]. eauto.
      - apply PUT_item_raise in Hfail as [? [?|?]]; eauto.
      - apply DELETE_item_raise in Hfail as [? ?]. eauto. }
    destruct Hw as [Hw He]. split_and!; [done|by rewrite Hw|done].
  - intros uuid4 is_done. eexists. split_and!; [|done..].
    by do 2 eexists.
Qed.

Lemma failure_leaves_store_witness :
  (serve (Update uuid_c (body_of "call mum" false)) world_ab).1
  = Raise (NotFoundError uuid_c) /\
  (serve (Update uuid_c (body_of "call mum" false)) world_ab).2 = world_ab /\
  (POST_items uuid_c (mkBody (Some "") None) world_ab).2 = world_ab.
Proof.
  assert (Hfail : (serve (Update uuid_c (body_of "call mum" false)) world_ab).1
                  = Raise (NotFoundError uuid_c)) by by vm_compute.
  split_and!; [done| |].
  - apply (proj1 (failure_leaves_store world_ab) _ (NotFoundError uuid_c) Hfail).
  - destruct (proj2 (failure_leaves_store world_ab) uuid_c None)
      as (e & _ & -> & _). reflexivity.
Defined.

(** ** A run of creations *)

Section creations.
Implicit Types (w : World) (cs : list (UUID * string * bool)).

Lemma store_after_creations cs w :
  wf w -> NoDup (dict_keys (store w) ++ cs.*1.*1) ->
  Forall (fun c => c.1.2 <> "") cs ->
  store (serve_all (create_request <$> cs) w)
  = store w ++ ((fun c => (c.1.1, created_item c)) <$> cs).
Proof.
  revert w. induction cs as [|[[u t] d] cs IH]; intros w Hwf Hnd Hts.
  - simpl. by rewrite app_nil_r.
  - apply Forall_cons in Hts as [Ht Hts]. simpl in Ht.
    rewrite !fmap_cons in *. simpl in Hnd. simpl.
    assert (Hu : u ∉ dict_keys (store w)).
    { apply NoDup_app in Hnd as (_ & Hnd & _). intros Hin.
      apply (Hnd _ Hin). by left. }
    rewrite bind_ret_world.
    pose proof (validate_nonempty t (Some d) Ht) as Hb.
  pose proof (POST_items_store w u _ _ Hwf Hb) as Hst.
  rewrite dict_setitem_fresh in Hst by done. fold (body_of t d) in Hst.
    rewrite IH; [| by apply POST_items_wf | | done].
    + rewrite Hst. by rewrite <- app_assoc.
    + rewrite Hst. unfold dict_keys in *. by rewrite fmap_app, <- app_assoc.
Qed.

(** A run of creations stores at most one item per creation, and one item
    per creation only when no identifier comes twice. *)
Lemma store_after_creations_length cs w :
  wf w -> Forall (fun c => c.1.2 <> "") cs ->
  length (store (serve_all (create_request <$> cs) w))
  <= length (store w) + length cs /\
  (length (store (serve_all (create_request <$> cs) w))
   = length (store w) + length cs ->
   NoDup (dict_keys (store w) ++ cs.*1.*1)).
Proof.
  revert w. induction cs as [|[[u t] d] cs IH]; intros w Hwf Hts.
  - simpl. split; [lia|]. intros _. rewrite app_nil_r.
    by apply store_keys_NoDup.
  - apply Forall_cons in Hts as [Ht Hts]. simpl in Ht.
    rewrite !fmap_cons. simpl. rewrite bind_ret_world.
    pose proof (validate_nonempty t (Some d) Ht) as Hb.
    pose proof (POST_items_store w u _ _ Hwf Hb) as Hst.
    fold (body_of t d) in Hst.
    destruct (IH _ (POST_items_wf w u (body_of t d) Hwf) Hts) as [Hle Heq].
    destruct (decide (u ∈ dict_keys (store w))) as [Hin|Hfresh].
    + rewrite Hst, dict_setitem_length in Hle by done. split; lia.
    + rewrite dict_setitem_fresh in Hst by done.
      rewrite Hst, length_app in Hle, Heq. simpl in Hle, Heq.
      split; [lia|]. intros Hlen.
      unfold dict_keys in *. rewrite fmap_app, <- app_assoc in Heq.
      apply Heq. lia.
Qed.

(** The creations leave as many items as there were creations exactly when
    their identifiers are pairwise different. *)
Lemma creations_all_stored cs :
  Forall (fun c => c.1.2 <> "") cs ->
  length (store (world_of cs)) = length cs <-> NoDup cs.*1.*1.
Proof.
  intros Hts. unfold world_of. split.
  - intros Hlen.
    by apply (store_after_creations_length cs World_init wf_init Hts).
  - intros Hnd. rewrite store_after_creations; [|apply wf_init|done..].
    simpl. by rewrite length_fmap.
Qed.

Lemma world_of_wf cs : wf (world_of cs).
Proof. apply reachable_wf, serve_all_reachable. constructor. Qed.
End creations.

(** C9: starting from the empty store, after fifteen creations, each under
    an identifier of its own as [uuid.uuid4()] hands them out (so that
    fifteen items are stored, see [creations_all_stored]),
    [list_items(0, 10)] returns exactly the first ten items in creation
    order and [list_items(10, 10)] returns exactly the remaining five in
    creation order. *)
Theorem pagination_of_fifteen cs :
  length cs = 15 -> NoDup cs.*1.*1 -> Forall (fun c => c.1.2 <> "") cs ->
  let w := world_of cs in
  let created := created_item <$> cs in
  GET_items 0 10 w = (Return (take 10 created), w) /\
  GET_items 10 10 w = (Return (drop 10 created), w) /\
  length (take 10 created) = 10 /\ length (drop 10 created) = 5.
Proof.
  intros Hlen Hnd Hts w created.
  assert (Hwf : wf w) by apply world_of_wf.
  assert (Hall : dict_values (store w) = created).
  { unfold w, world_of. rewrite store_after_creations; [|apply wf_init|done..].
    unfold dict_values, created. simpl. rewrite <- list_fmap_compose.
    by apply list_fmap_ext. }
  assert (Hc : length created = 15) by (unfold created; by rewrite length_fmap).
  pose proof (GET_items_run w 0 10 Hwf) as H1.
  pose proof (GET_items_run w 10 10 Hwf) as H2.
  rewrite (list_slice_nonneg _ 0 10), Hall in H1 by lia.
  rewrite (list_slice_nonneg _ 10 10), Hall in H2 by lia.
  simpl in H1.
  split_and!; [done| | |].
  - rewrite H2. rewrite take_ge; [done|]. rewrite length_drop. lia.
  - rewrite length_take. lia.
  - rewrite length_drop. lia.
Qed.

Lemma pagination_of_fifteen_witness :
  length fifteen_distinct = 15 /\
  (GET_items 10 10 (world_of fifteen_distinct)).1
  = Return (created_item <$>
      [(sample_uuid 10, "k", false); (sample_uuid 11, "l", true);
       (sample_uuid 12, "m", false); (sample_uuid 13, "n", false);
       (sample_uuid 14, "o", true)]).
Proof.
  assert (Hlen : length fifteen_distinct = 15) by reflexivity.
  assert (Hnd : NoDup fifteen_distinct.*1.*1).
  { vm_compute. repeat (apply NoDup_cons; split;
      [intros H; repeat (apply elem_of_cons in H as [H|H]; [done|]);
       by apply elem_of_nil in H|]). apply NoDup_nil_2. }
  assert (Hts : Forall (fun c => c.1.2 <> "") fifteen_distinct).
  { repeat (apply Forall_cons; split; [done|]). apply Forall_nil_2. }
  split; [done|].
  destruct (pagination_of_fifteen fifteen_distinct Hlen Hnd Hts)
    as (_ & -> & _).
  reflexivity.
Defined.

(** ** Negative bounds *)

(** C10, as stated, fails in its example: with ten items stored,
    [list_items(skip=-1, limit=10)] slices [all_items[-1:9]], whose lower
    bound is index 9, and returns nothing. *)
Lemma list_items_negative_skip_ten_items :
  let w := world_of (take 10 fourteen) in
  length (store w) = 10 /\
  last (dict_values (store w)) = Some (created_item (sample_uuid 9, "j", false)) /\
  GET_items (-1) 10 w = (Return [], w).
Proof. by vm_compute. Qed.

(** C10 (amended): [list_items] checks neither [skip] nor [limit] for
    sign and never fails; negative bounds follow Python's slices and count
    from the end of the insertion-ordered sequence.  For example
    [list_items(skip=-1, limit=10)] returns the single most recently
    inserted item when between one and nine items are stored, and the
    empty sequence when ten or more are. *)
Theorem list_items_negative_skip w :
  wf w ->
  (forall skip limit,
     GET_items skip limit w
     = (Return (list_slice (dict_values (store w)) skip (skip + limit)), w)) /\
  (forall item, last (dict_values (store w)) = Some item ->
                length (store w) <= 9 ->
                GET_items (-1) 10 w = (Return [item], w)) /\
  (10 <= length (store w) -> GET_items (-1) 10 w = (Return [], w)).
Proof.
  intros Hwf. split_and!.
  - intros skip limit. by apply GET_items_run.
  - intros item Hlast Hlen. rewrite GET_items_run by done.
    rewrite (list_slice_last _ item); [done..|].
    unfold dict_values. by rewrite length_fmap.
  - intros Hlen. rewrite GET_items_run by done.
    rewrite list_slice_last_empty; [done|].
    unfold dict_values. by rewrite length_fmap.
Qed.

Lemma list_items_negative_skip_witness :
  wf world_ab /\
  GET_items (-1) 10 world_ab
  = (Return [ItemResponse.mk uuid_b "walk dog" true], world_ab).
Proof.
  assert (Hwf : wf world_ab).
  { apply reachable_wf, serve_all_reachable. constructor. }
  split; [done|].
  apply (list_items_negative_skip world_ab Hwf); [reflexivity|vm_compute; lia].
Defined.

(** ** How requests compose *)

Section composition.
Implicit Types (w : World) (k : UUID) (b : Body).

Lemma dict_setitem_setitem {V} k (v1 v2 : V) (d : dict V) :
  dict_setitem k v2 (dict_setitem k v1 d) = dict_setitem k v2 d.
Proof.
  induction d as [|[k' v'] d IH]; simpl.
  - by rewrite N.eqb_refl.
  - destruct (N.eqb_spec k' k) as [->|Hne]; simpl.
    + by rewrite N.eqb_refl.
    + destruct (N.eqb_spec k' k); [done|]. by rewrite IH.
Qed.

Lemma filter_key_snoc {V} k (v : V) (d : dict V) :
  k ∉ dict_keys d -> filter (fun kv => kv.1 <> k) (d ++ [(k, v)]) = d.
Proof.
  intros Hk. rewrite filter_app, filter_key_absent by done.
  rewrite filter_cons_False by (simpl; auto). apply app_nil_r.
Qed.

Lemma DELETE_item_store w k old :
  wf w -> dict_get k (store w) = Some old ->
  (DELETE_item k w).1 = Return tt /\
  store (DELETE_item k w).2 = filter (fun kv => kv.1 <> k) (store w) /\
  dict_get k (store (DELETE_item k w).2) = None.
Proof.
  intros Hwf Hget.
  destruct (DELETE_item_found _ _ _ Hwf Hget) as (d' & _ & Hdel & ->).
  apply dict_delitem_Some in Hdel as (Hf & _ & Hnone & _);
    [|by apply store_keys_NoDup].
  unfold store at 1 3. simpl. by rewrite <- Hf.
Qed.

Lemma updated_updated u1 u2 old :
  updated u2 (updated u1 old) = updated u2 old.
Proof. done. Qed.
End composition.

(** X1: an item can be fetched right after it was created, whatever
    identifier was drawn: [get_item] on the identifier of the created item
    returns the very item [create_item] returned. *)
Theorem create_then_get w uuid4 b item_in :
  wf w -> ItemCreate_validate b = inr item_in ->
  let created := ItemResponse.mk uuid4 (ItemCreate.text item_in)
                                 (ItemCreate.is_done item_in) in
  let w' := (POST_items uuid4 b w).2 in
  (POST_items uuid4 b w).1 = Return created /\
  GET_item uuid4 w' = (Return created, w').
Proof.
  intros Hwf Hb created w'. split.
  - by rewrite (POST_items_run _ _ _ _ Hb).
  - rewrite GET_item_run by by apply POST_items_wf.
    unfold w'. by rewrite (POST_items_store _ _ _ _ Hwf Hb), dict_get_setitem_eq.
Qed.

Lemma create_then_get_witness :
  GET_item uuid_a (POST_items uuid_a (body_of "feed cat" true) world_ab).2
  = (Return (ItemResponse.mk uuid_a "feed cat" true),
     (POST_items uuid_a (body_of "feed cat" true) world_ab).2).
Proof.
  assert (Hwf : wf world_ab).
  { apply reachable_wf, serve_all_reachable. constructor. }
  assert (Hb : ItemCreate_validate (body_of "feed cat" true)
               = inr (ItemCreate.mk "feed cat" true)) by reflexivity.
  apply (create_then_get world_ab uuid_a _ _ Hwf Hb).
Defined.

(** X2: when the identifier drawn is already a key, [create_item]
    replaces the item stored under it where it stands: the identifiers and
    their order, the number of items and every other item stay as they
    were, and the old item of that identifier is gone. *)
Theorem create_item_existing_id w uuid4 b item_in :
  wf w -> ItemCreate_validate b = inr item_in ->
  uuid4 ∈ dict_keys (store w) ->
  let w' := (POST_items uuid4 b w).2 in
  dict_keys (store w') = dict_keys (store w) /\
  length (store w') = length (store w) /\
  (forall k, k <> uuid4 -> dict_get k (store w') = dict_get k (store w)) /\
  dict_get uuid4 (store w')
  = Some (ItemResponse.mk uuid4 (ItemCreate.text item_in)
                          (ItemCreate.is_done item_in)).
Proof.
  intros Hwf Hb Hin w'. unfold w'.
  rewrite (POST_items_store _ _ _ _ Hwf Hb). split_and!.
  - by apply dict_setitem_keys.
  - by apply dict_setitem_length.
  - intros k Hne. by apply dict_get_setitem_ne.
  - apply dict_get_setitem_eq.
Qed.

Lemma create_item_existing_id_witness :
  store (POST_items uuid_a (body_of "feed cat" true) world_ab).2
  = [(uuid_a, ItemResponse.mk uuid_a "feed cat" true);
     (uuid_b, ItemResponse.mk uuid_b "walk dog" true)] /\
  dict_keys (store (POST_items uuid_a (body_of "feed cat" true) world_ab).2)
  = dict_keys (store world_ab).
Proof.
  assert (Hwf : wf world_ab).
  { apply reachable_wf, serve_all_reachable. constructor. }
  assert (Hb : ItemCreate_validate (body_of "feed cat" true)
               = inr (ItemCreate.mk "feed cat" true)) by reflexivity.
  assert (Hin : uuid_a ∈ dict_keys (store world_ab)).
  { vm_compute. apply elem_of_cons. by left. }
  split; [by vm_compute|].
  apply (create_item_existing_id world_ab uuid_a _ _ Hwf Hb Hin).
Defined.

(** X3: the last update wins.  Updating an identifier with one body and
    then with a second, valid one gives the same answer and leaves the same
    world as the second update alone; in particular repeating an update
    changes nothing more. *)
Theorem update_last_write_wins w k b1 b2 item_update :
  wf w -> ItemCreate_validate b2 = inr item_update ->
  PUT_item k b2 (PUT_item k b1 w).2 = PUT_item k b2 w.
Proof.
  intros Hwf Hb2.
  destruct (ItemCreate_validate b1) as [e|u1] eqn:Hb1.
  { by rewrite (PUT_item_invalid _ _ _ _ Hb1). }
  destruct (dict_get k (store w)) as [old|] eqn:Hget.
  2:{ by rewrite (PUT_item_missing _ _ _ _ Hwf Hb1 Hget). }
  destruct (PUT_item_found _ _ _ _ _ Hwf Hb1 Hget) as (r & Hr & Ho & ->).
  destruct (PUT_item_found _ _ _ _ _ Hwf Hb2 Hget) as (r' & Hr' & _ & ->).
  assert (r' = r) as -> by congruence. simpl.
  set (w1 := {| heap := alter (updated u1) r (heap w);
                items_db := items_db w |}).
  assert (Hwf1 : wf w1) by by apply wf_alter.
  assert (Hget1 : dict_get k (store w1) = Some (updated u1 old)).
  { rewrite store_get by done. simpl. rewrite Hr. simpl.
    by rewrite list_lookup_alter_eq, Ho. }
  destruct (PUT_item_found _ _ _ _ _ Hwf1 Hb2 Hget1) as (r1 & Hr1 & _ & ->).
  simpl in Hr1. assert (r1 = r) as -> by congruence.
  rewrite updated_updated. simpl. do 2 f_equal.
  rewrite list_alter_alter_eq. by apply list_alter_ext.
Qed.

Lemma update_last_write_wins_witness :
  PUT_item uuid_a (body_of "buy oat milk" true)
    (PUT_item uuid_a (body_of "buy soy milk" false) world_ab).2
  = PUT_item uuid_a (body_of "buy oat milk" true) world_ab.
Proof.
  assert (Hwf : wf world_ab).
  { apply reachable_wf, serve_all_reachable. constructor. }
  assert (Hb : ItemCreate_validate (body_of "buy oat milk" true)
               = inr (ItemCreate.mk "buy oat milk" true)) by reflexivity.
  apply (update_last_write_wins world_ab uuid_a _ _ _ Hwf Hb).
Defined.

(** X4: after a delete request, whether it succeeded or not, the
    identifier is not in the store: deleting it again fails with the 404
    and changes nothing. *)
Theorem delete_twice w k :
  wf w ->
  DELETE_item k (DELETE_item k w).2
  = (Raise (NotFoundError k), (DELETE_item k w).2).
Proof.
  intros Hwf. pose proof (DELETE_item_wf w k Hwf) as Hwf'.
  apply DELETE_item_missing; [done|].
  destruct (dict_get k (store w)) as [old|] eqn:Hget.
  - by destruct (DELETE_item_store _ _ _ Hwf Hget) as (_ & _ & ?).
  - by rewrite (DELETE_item_missing _ _ Hwf Hget).
Qed.

Lemma delete_twice_witness :
  DELETE_item uuid_a (DELETE_item uuid_a world_ab).2
  = (Raise (NotFoundError uuid_a), (DELETE_item uuid_a world_ab).2).
Proof.
  assert (Hwf : wf world_ab).
  { apply reachable_wf, serve_all_reachable. constructor. }
  apply (delete_twice world_ab uuid_a Hwf).
Defined.

(** X5: deleting an item and creating one under the same identifier does
    not restore its place: the new item is listed last. *)
Theorem delete_then_create w k b item_in :
  wf w -> ItemCreate_validate b = inr item_in -> k ∈ dict_keys (store w) ->
  store (POST_items k b (DELETE_item k w).2).2
  = filter (fun kv => kv.1 <> k) (store w)
    ++ [(k, ItemResponse.mk k (ItemCreate.text item_in)
                            (ItemCreate.is_done item_in))].
Proof.
  intros Hwf Hb [old Hget]%dict_get_is_Some.
  pose proof (DELETE_item_wf w k Hwf) as Hwf'.
  destruct (DELETE_item_store _ _ _ Hwf Hget) as (_ & Hst & Hnone).
  rewrite (POST_items_store _ _ _ _ Hwf' Hb).
  rewrite dict_setitem_fresh by by apply dict_get_None.
  by rewrite Hst.
Qed.

Lemma delete_then_create_witness :
  store (POST_items uuid_a (body_of "buy milk" false)
           (DELETE_item uuid_a world_ab).2).2
  = [(uuid_b, ItemResponse.mk uuid_b "walk dog" true);
     (uuid_a, ItemResponse.mk uuid_a "buy milk" false)].
Proof.
  assert (Hwf : wf world_ab).
  { apply reachable_wf, serve_all_reachable. constructor. }
  assert (Hb : ItemCreate_validate (body_of "buy milk" false)
               = inr (ItemCreate.mk "buy milk" false)) by reflexivity.
  assert (Hin : uuid_a ∈ dict_keys (store world_ab)).
  { vm_compute. apply elem_of_cons. by left. }
  rewrite (delete_then_create world_ab uuid_a _ _ Hwf Hb Hin).
  by vm_compute.
Defined.

(** X6: creating an item under an identifier that is not in the store and
    deleting it again gives back the store as it was. *)
Theorem create_then_delete w uuid4 b item_in :
  wf w -> ItemCreate_validate b = inr item_in ->
  uuid4 ∉ dict_keys (store w) ->
  let w1 := (POST_items uuid4 b w).2 in
  (DELETE_item uuid4 w1).1 = Return tt /\
  store (DELETE_item uuid4 w1).2 = store w.
Proof.
  intros Hwf Hb Hfresh w1.
  assert (Hwf1 : wf w1) by by apply POST_items_wf.
  assert (Hst1 : store w1 = store w ++
    [(uuid4, ItemResponse.mk uuid4 (ItemCreate.text item_in)
                             (ItemCreate.is_done item_in))]).
  { unfold w1. rewrite (POST_items_store _ _ _ _ Hwf Hb).
    by apply dict_setitem_fresh. }
  assert (Hget : dict_get uuid4 (store w1)
    = Some (ItemResponse.mk uuid4 (ItemCreate.text item_in)
                            (ItemCreate.is_done item_in))).
  { unfold w1. rewrite (POST_items_store _ _ _ _ Hwf Hb).
    apply dict_get_setitem_eq. }
  destruct (DELETE_item_store _ _ _ Hwf1 Hget) as (Hret & Hst & _).
  split; [done|]. rewrite Hst, Hst1. by apply filter_key_snoc.
Qed.

Lemma create_then_delete_witness :
  store (DELETE_item uuid_c
           (POST_items uuid_c (body_of "feed cat" true) world_ab).2).2
  = store world_ab.
Proof.
  assert (Hwf : wf world_ab).
  { apply reachable_wf, serve_all_reachable. constructor. }
  assert (Hb : ItemCreate_validate (body_of "feed cat" true)
               = inr (ItemCreate.mk "feed cat" true)) by reflexivity.
  assert (Hfresh : uuid_c ∉ dict_keys (store world_ab)).
  { vm_compute. intros H. repeat (apply elem_of_cons in H as [H|H]; [done|]).
    by apply elem_of_nil in H. }
  apply (create_then_delete world_ab uuid_c _ _ Hwf Hb Hfresh).
Defined.

(** ** More on listing *)

Section slice_more.
Context {A : Type}.
Implicit Types (l : list A).

(** A slice is a run of consecutive elements. *)
Lemma list_slice_infix l start stop :
  exists before after, l = before ++ list_slice l start stop ++ after.
Proof.
  unfold list_slice.
  set (lo := Z.to_nat (slice_adjust (Z.of_nat (length l)) start)).
  set (n := Z.to_nat (_ - _)).
  exists (take lo l), (drop n (drop lo l)). by rewrite !take_drop.
Qed.

Lemma list_slice_length_le l skip limit :
  (0 <= limit)%Z ->
  length (list_slice l skip (skip + limit)) <= Z.to_nat limit.
Proof.
  intros Hl. unfold list_slice. rewrite length_take.
  etrans; [apply Nat.le_min_l|].
  unfold slice_adjust.
  repeat match goal with
         | |- context [(?x <? ?y)%Z] => destruct (Z.ltb_spec x y)
         end; lia.
Qed.

(** A bound that ends before it starts gives nothing. *)
Lemma list_slice_backwards l skip limit :
  (0 <= skip)%Z -> (limit < 0)%Z -> (0 <= skip + limit)%Z ->
  list_slice l skip (skip + limit) = [].
Proof.
  intros Hs Hl Hstop. unfold list_slice.
  replace (Z.to_nat _) with 0; [done|].
  unfold slice_adjust.
  repeat match goal with
         | |- context [(?x <? ?y)%Z] => destruct (Z.ltb_spec x y)
         end; lia.
Qed.

(** A negative stop counts from the end. *)
Lemma list_slice_from_end l skip limit :
  (0 <= skip)%Z -> (skip + limit < 0)%Z ->
  list_slice l skip (skip + limit)
  = drop (Z.to_nat skip)
         (take (Z.to_nat (Z.of_nat (length l) + (skip + limit))) l).
Proof.
  intros Hs Hstop. unfold list_slice, slice_adjust.
  destruct (Z.ltb_spec skip 0); [lia|].
  destruct (Z.ltb_spec (skip + limit) 0); [|lia].
  set (len := Z.of_nat (length l)).
  assert (Hlen : len = Z.of_nat (length l)) by done. clearbody len.
  destruct (Z.le_gt_cases (len + (skip + limit)) skip) as [Hle|Hgt].
  - (* the window is empty *)
    rewrite (drop_ge (take _ _)) by (rewrite length_take; lia).
    replace (Z.to_nat _) with 0; [done|].
    destruct (Z.ltb_spec (skip + limit + len) 0);
      destruct (Z.ltb_spec len skip); lia.
  - destruct (Z.ltb_spec (skip + limit + len) 0); [lia|].
    destruct (Z.ltb_spec len skip); [lia|].
    rewrite take_drop_commute. do 2 f_equal. lia.
Qed.
End slice_more.

(** X7: whatever integers [skip] and [limit] are, [list_items] returns a
    run of consecutive stored items in their stored order: nothing is
    invented, repeated or reordered. *)
Theorem list_items_is_a_run w skip limit :
  wf w ->
  exists items before after,
    GET_items skip limit w = (Return items, w) /\
    dict_values (store w) = before ++ items ++ after.
Proof.
  intros Hwf.
  destruct (list_slice_infix (dict_values (store w)) skip (skip + limit))
    as (before & after & Hrun).
  exists (list_slice (dict_values (store w)) skip (skip + limit)), before, after.
  split; [by apply GET_items_run|done].
Qed.

Lemma list_items_is_a_run_witness :
  exists items before after,
    GET_items (-2) 1 world_ab = (Return items, world_ab) /\
    dict_values (store world_ab) = before ++ items ++ after.
Proof.
  assert (Hwf : wf world_ab).
  { apply reachable_wf, serve_all_reachable. constructor. }
  apply (list_items_is_a_run world_ab (-2) 1 Hwf).
Defined.

(** X8: with a non-negative [limit], [list_items] returns at most [limit]
    items for every [skip], negative ones included. *)
Theorem list_items_at_most_limit w skip limit items :
  wf w -> (0 <= limit)%Z ->
  (GET_items skip limit w).1 = Return items ->
  (Z.of_nat (length items) <= limit)%Z.
Proof.
  intros Hwf Hl. rewrite GET_items_run by done. simpl. intros [= <-].
  pose proof (list_slice_length_le (dict_values (store w)) skip limit Hl). lia.
Qed.

Lemma list_items_at_most_limit_witness :
  (Z.of_nat (length [ItemResponse.mk uuid_a "buy milk" false]) <= 1)%Z.
Proof.
  assert (Hwf : wf world_ab).
  { apply reachable_wf, serve_all_reachable. constructor. }
  assert (Hl : (0 <= 1)%Z) by lia.
  assert (Hrun : (GET_items (-2) 1 world_ab).1
                 = Return [ItemResponse.mk uuid_a "buy milk" false])
    by reflexivity.
  apply (list_items_at_most_limit world_ab (-2) 1 _ Hwf Hl Hrun).
Defined.

(** X9: a negative [limit] is not refused.  With [skip] non-negative, the
    result is empty when [skip + limit] is still non-negative, and
    otherwise it is what remains after dropping the first [skip] items and
    the last [-(skip + limit)]: [list_items(0, -1)] is everything but the
    last item. *)
Theorem list_items_negative_limit w skip limit :
  wf w -> (0 <= skip)%Z -> (limit < 0)%Z ->
  let all_items := dict_values (store w) in
  ((0 <= skip + limit)%Z -> GET_items skip limit w = (Return [], w)) /\
  ((skip + limit < 0)%Z ->
   GET_items skip limit w
   = (Return (drop (Z.to_nat skip)
                (take (length all_items - Z.to_nat (- (skip + limit)))
                      all_items)), w)).
Proof.
  intros Hwf Hs Hl all_items. rewrite GET_items_run by done. split.
  - intros Hstop. by rewrite list_slice_backwards.
  - intros Hstop. rewrite list_slice_from_end by done.
    unfold all_items. do 4 f_equal. lia.
Qed.

Lemma list_items_negative_limit_witness :
  GET_items 0 (-1) world_ab
  = (Return [ItemResponse.mk uuid_a "buy milk" false], world_ab).
Proof.
  assert (Hwf : wf world_ab).
  { apply reachable_wf, serve_all_reachable. constructor. }
  assert (Hs : (0 <= 0)%Z) by lia. assert (Hl : (-1 < 0)%Z) by lia.
  assert (Hstop : (0 + -1 < 0)%Z) by lia.
  apply (proj2 (list_items_negative_limit world_ab 0 (-1) Hwf Hs Hl) Hstop).
Defined.

(** X10: consecutive pages join up.  For non-negative [skip], [a] and [b],
    the page of [a] items from [skip] followed by the page of [b] items
    from [skip + a] is the page of [a + b] items from [skip]. *)
Theorem list_items_pages_join w skip a b page1 page2 :
  wf w -> (0 <= skip)%Z -> (0 <= a)%Z -> (0 <= b)%Z ->
  (GET_items skip a w).1 = Return page1 ->
  (GET_items (skip + a) b w).1 = Return page2 ->
  GET_items skip (a + b) w = (Return (page1 ++ page2), w).
Proof.
  intros Hwf Hs Ha Hb. rewrite !GET_items_run by done. simpl.
  rewrite !list_slice_nonneg by lia. intros [= <-] [= <-]. do 2 f_equal.
  rewrite !Z2Nat.inj_add by lia.
  rewrite <- drop_drop. by rewrite take_take_drop.
Qed.

Lemma list_items_pages_join_witness :
  GET_items 0 (1 + 1) world_ab
  = (Return ([ItemResponse.mk uuid_a "buy milk" false]
             ++ [ItemResponse.mk uuid_b "walk dog" true]), world_ab).
Proof.
  assert (Hwf : wf world_ab).
  { apply reachable_wf, serve_all_reachable. constructor. }
  assert (H0 : (0 <= 0)%Z) by lia. assert (H1 : (0 <= 1)%Z) by lia.
  apply (list_items_pages_join world_ab 0 1 1 _ _ Hwf H0 H1 H1);
    reflexivity.
Defined.

(** ** Answers over HTTP *)

Section http_facts.
Implicit Types (w : World) (k : UUID) (b : Body).

Lemma respond_create uuid4 b w :
  respond (Api (Create uuid4 b)) w
  = (answer (fun i => (HTTP_201_CREATED, JsonItem i)) (POST_items uuid4 b w).1,
     (POST_items uuid4 b w).2).
Proof. simpl. by destruct (POST_items uuid4 b w). Qed.

Lemma respond_list skip limit w :
  respond (Api (List skip limit)) w
  = (answer (fun l => (HTTP_200_OK, JsonItems l)) (GET_items skip limit w).1,
     (GET_items skip limit w).2).
Proof. simpl. by destruct (GET_items skip limit w). Qed.

Lemma respond_get k w :
  respond (Api (Get k)) w
  = (answer (fun i => (HTTP_200_OK, JsonItem i)) (GET_item k w).1,
     (GET_item k w).2).
Proof. simpl. by destruct (GET_item k w). Qed.

Lemma respond_update k b w :
  respond (Api (Update k b)) w
  = (answer (fun i => (HTTP_200_OK, JsonItem i)) (PUT_item k b w).1,
     (PUT_item k b w).2).
Proof. simpl. by destruct (PUT_item k b w). Qed.

Lemma respond_delete k w :
  respond (Api (Delete k)) w
  = (answer (fun _ => (HTTP_204_NO_CONTENT, Empty)) (DELETE_item k w).1,
     (DELETE_item k w).2).
Proof. simpl. by destruct (DELETE_item k w). Qed.

Lemma GET_items_world skip limit w : (GET_items skip limit w).2 = w.
Proof.
  unfold GET_items, list_items, bind, items_db_values, ret.
  apply serialize_list_world.
Qed.

Lemma GET_item_world k w : (GET_item k w).2 = w.
Proof.
  unfold GET_item, get_item, bind, items_db_get, raise, ret.
  destruct (dict_get k (items_db w)) as [r|]; simpl; [|done].
  apply serialize_world.
Qed.

Lemma reachable_store_inv w : reachable w -> store_inv w.
Proof.
  induction 1 as [|rq w Hw IH]; [apply store_inv_init|].
  by apply store_inv_serve; [apply reachable_wf|].
Qed.

Lemma NoDup_values_key {V} (d : dict V) k1 k2 v :
  NoDup (dict_values d) -> (k1, v) ∈ d -> (k2, v) ∈ d -> k1 = k2.
Proof.
  unfold dict_values. induction d as [|[k' v'] d IH]; simpl.
  - intros _ H. by apply elem_of_nil in H.
  - rewrite NoDup_cons, !elem_of_cons. intros [Hv' Hnd] [E1|H1] [E2|H2].
    + congruence.
    + exfalso. apply Hv'. apply list_elem_of_fmap. exists (k2, v).
      split; [simpl; congruence|done].
    + exfalso. apply Hv'. apply list_elem_of_fmap. exists (k1, v).
      split; [simpl; congruence|done].
    + by apply IH.
Qed.
End http_facts.

(** X11: the routes registered with [GET] (the greeting, the favicon, the
    listing and the lookup of one item) never change the world, whatever
    the world and the parameters are and whether they succeed or fail. *)
Theorem get_routes_are_safe hrq w :
  method hrq = GET -> (respond hrq w).2 = w.
Proof.
  destruct hrq as [| |[u b|skip limit|k|k b|k]]; try done; intros _.
  - rewrite respond_list. apply GET_items_world.
  - rewrite respond_get. apply GET_item_world.
Qed.

Lemma get_routes_are_safe_witness :
  (respond (Api (Get uuid_c)) world_ab).2 = world_ab.
Proof.
  assert (Hm : method (Api (Get uuid_c)) = GET) by reflexivity.
  apply (get_routes_are_safe (Api (Get uuid_c)) world_ab Hm).
Defined.

(** Membership of a concrete element in a concrete list. *)
Ltac solve_elem :=
  repeat (apply elem_of_cons; first [left; reflexivity | right]).

(** X12: in every reachable world the answer to any request carries one of
    the statuses 200, 201, 204, 404 and 422: the guard of [delete_item]
    keeps [del] from raising, and no handler fails in any other way, so
    there is never a server error. *)
Theorem never_a_server_error hrq w :
  reachable w ->
  status_of (respond hrq w) ∈ [200; 201; 204; 404; 422]%Z.
Proof.
  intros Hwf%reachable_wf. unfold status_of.
  destruct hrq as [| |[u b|skip limit|k|k b|k]].
  - simpl. solve_elem.
  - simpl. solve_elem.
  - rewrite respond_create.
    destruct (ItemCreate_validate b) as [e|item_in] eqn:Hb.
    + rewrite (POST_items_invalid _ _ _ _ Hb). simpl.
      destruct (POST_items_raise w u b e) as [_ (loc & ty & ->)].
      { by rewrite (POST_items_invalid _ _ _ _ Hb). }
      simpl. solve_elem.
    + rewrite (POST_items_run _ _ _ _ Hb). simpl. solve_elem.
  - rewrite respond_list, GET_items_run by done. simpl. solve_elem.
  - rewrite respond_get, GET_item_run by done.
    destruct (dict_get k (store w)); simpl; solve_elem.
  - rewrite respond_update.
    destruct (ItemCreate_validate b) as [e|item_update] eqn:Hb.
    + rewrite (PUT_item_invalid _ _ _ _ Hb). simpl.
      destruct (PUT_item_raise w k b e) as [_ [(loc & ty & ->)| ->]].
      { by rewrite (PUT_item_invalid _ _ _ _ Hb). }
      all: simpl; solve_elem.
    + destruct (dict_get k (store w)) as [old|] eqn:Hget.
      * destruct (PUT_item_found _ _ _ _ _ Hwf Hb Hget) as (r & _ & _ & ->).
        simpl. solve_elem.
      * rewrite (PUT_item_missing _ _ _ _ Hwf Hb Hget). simpl. solve_elem.
  - rewrite respond_delete.
    destruct (dict_get k (store w)) as [old|] eqn:Hget.
    + destruct (DELETE_item_found _ _ _ Hwf Hget) as (d' & _ & _ & ->).
      simpl. solve_elem.
    + rewrite (DELETE_item_missing _ _ Hwf Hget). simpl. solve_elem.
Qed.

Lemma never_a_server_error_witness :
  status_of (respond (Api (Delete uuid_a)) world_ab)
  ∈ [200; 201; 204; 404; 422]%Z.
Proof.
  assert (Hr : reachable world_ab).
  { apply serve_all_reachable. constructor. }
  apply (never_a_server_error (Api (Delete uuid_a)) world_ab Hr).
Defined.

(** X13: the whole life of an item over HTTP.  Creating under an
    identifier that is not in the store answers 201 with the item;
    updating it answers 200 with the new text and flag under the same
    identifier; deleting it answers 204 with no body; fetching it then
    answers 404 naming the identifier; and the store is back to what it
    was before the creation. *)
Theorem item_life_cycle w uuid4 text is_done text' is_done' :
  wf w -> text <> "" -> text' <> "" -> uuid4 ∉ dict_keys (store w) ->
  let r1 := respond (Api (Create uuid4 (body_of text is_done))) w in
  let r2 := respond (Api (Update uuid4 (body_of text' is_done'))) r1.2 in
  let r3 := respond (Api (Delete uuid4)) r2.2 in
  let r4 := respond (Api (Get uuid4)) r3.2 in
  r1.1 = (201%Z, JsonItem (ItemResponse.mk uuid4 text is_done)) /\
  r2.1 = (200%Z, JsonItem (ItemResponse.mk uuid4 text' is_done')) /\
  r3.1 = (204%Z, Empty) /\
  r4.1 = (404%Z, JsonDetail (not_found_detail uuid4)) /\
  store r4.2 = store w.
Proof.
  intros Hwf Ht Ht' Hfresh r1 r2 r3 r4.
  pose proof (validate_nonempty text (Some is_done) Ht) as Hb.
  pose proof (validate_nonempty text' (Some is_done') Ht') as Hb'.
  fold (body_of text is_done) in Hb. fold (body_of text' is_done') in Hb'.
  (* creation *)
  assert (Hwf1 : wf r1.2).
  { unfold r1. rewrite respond_create. by apply POST_items_wf. }
  assert (Hst1 : store r1.2
    = store w ++ [(uuid4, ItemResponse.mk uuid4 text is_done)]).
  { unfold r1. rewrite respond_create. simpl.
    rewrite (POST_items_store _ _ _ _ Hwf Hb). by apply dict_setitem_fresh. }
  assert (Hget1 : dict_get uuid4 (store r1.2)
    = Some (ItemResponse.mk uuid4 text is_done)).
  { unfold r1. rewrite respond_create. simpl.
    rewrite (POST_items_store _ _ _ _ Hwf Hb). apply dict_get_setitem_eq. }
  (* update *)
  destruct (PUT_item_store _ _ _ _ _ Hwf1 Hb' Hget1) as [Hret2 Hst2].
  assert (Hwf2 : wf r2.2).
  { unfold r2. rewrite respond_update. by apply PUT_item_wf. }
  assert (Hst2' : store r2.2
    = store w ++ [(uuid4, ItemResponse.mk uuid4 text' is_done')]).
  { unfold r2. rewrite respond_update. simpl. rewrite Hst2, Hst1.
    rewrite <- (dict_setitem_fresh uuid4 _ (store w)) by done.
    rewrite dict_setitem_setitem. by apply dict_setitem_fresh. }
  assert (Hget2 : dict_get uuid4 (store r2.2)
    = Some (ItemResponse.mk uuid4 text' is_done')).
  { unfold r2. rewrite respond_update. simpl. rewrite Hst2.
    apply dict_get_setitem_eq. }
  (* deletion *)
  destruct (DELETE_item_store _ _ _ Hwf2 Hget2) as (Hret3 & Hst3 & Hnone3).
  assert (Hwf3 : wf r3.2).
  { unfold r3. rewrite respond_delete. by apply DELETE_item_wf. }
  assert (Hst3' : store r3.2 = store w).
  { unfold r3. rewrite respond_delete. simpl. rewrite Hst3, Hst2'.
    by apply filter_key_snoc. }
  split_and!.
  - unfold r1. rewrite respond_create. by rewrite (POST_items_run _ _ _ _ Hb).
  - unfold r2. rewrite respond_update. simpl. by rewrite Hret2.
  - unfold r3. rewrite respond_delete. simpl. by rewrite Hret3.
  - unfold r4. rewrite respond_get, GET_item_run by done. simpl.
    assert (dict_get uuid4 (store r3.2) = None) as ->; [|done].
    unfold r3. rewrite respond_delete. apply Hnone3.
  - unfold r4. by rewrite respond_get, GET_item_world.
Qed.

Lemma item_life_cycle_witness :
  (respond (Api (Get uuid_c))
     (respond (Api (Delete uuid_c))
        (respond (Api (Update uuid_c (body_of "buy milk" true)))
           (respond (Api (Create uuid_c (body_of "buy milk" false)))
              world_ab).2).2).2).1
  = (404%Z, JsonDetail (not_found_detail uuid_c)).
Proof.
  assert (Hwf : wf world_ab).
  { apply reachable_wf, serve_all_reachable. constructor. }
  assert (Ht : "buy milk" <> "") by done.
  assert (Hfresh : uuid_c ∉ dict_keys (store world_ab)).
  { vm_compute. intros H. repeat (apply elem_of_cons in H as [H|H]; [done|]).
    by apply elem_of_nil in H. }
  apply (item_life_cycle world_ab uuid_c "buy milk" false "buy milk" true
           Hwf Ht Ht Hfresh).
Defined.

(** ** Across requests *)

(** X14: a request changes the number of stored items by at most one:
    only a creation can add an item, only a deletion can remove one, and
    listing, lookup and update leave the number as it is. *)
Theorem count_changes_by_at_most_one rq w :
  wf w ->
  let n := length (store w) in
  let n' := length (store (serve rq w).2) in
  match rq with
  | Create _ _ => n' = n \/ n' = S n
  | Delete _ => n' = n \/ S n' = n
  | List _ _ | Get _ | Update _ _ => n' = n
  end.
Proof.
  intros Hwf n n'. unfold n, n'. rewrite serve_world.
  destruct rq as [u b|skip limit|k|k b|k].
  - destruct (ItemCreate_validate b) as [e|item_in] eqn:Hb.
    + left. by rewrite (POST_items_invalid _ _ _ _ Hb).
    + rewrite (POST_items_store _ _ _ _ Hwf Hb).
      destruct (decide (u ∈ dict_keys (store w))) as [Hin|Hfresh].
      * left. by apply dict_setitem_length.
      * right. rewrite dict_setitem_fresh, length_app by done. simpl. lia.
  - by rewrite GET_items_world.
  - by rewrite GET_item_world.
  - destruct (ItemCreate_validate b) as [e|item_update] eqn:Hb.
    + by rewrite (PUT_item_invalid _ _ _ _ Hb).
    + destruct (dict_get k (store w)) as [old|] eqn:Hget.
      * destruct (PUT_item_store _ _ _ _ _ Hwf Hb Hget) as [_ ->].
        apply dict_setitem_length, dict_get_is_Some. by eexists.
      * by rewrite (PUT_item_missing _ _ _ _ Hwf Hb Hget).
  - destruct (dict_get k (store w)) as [old|] eqn:Hget.
    + right. destruct (DELETE_item_found _ _ _ Hwf Hget) as (d' & _ & Hdel & ->).
      apply dict_delitem_Some in Hdel as (_ & Hlen & _);
        [|by apply store_keys_NoDup].
      unfold store at 1. simpl. by rewrite Hlen.
    + left. by rewrite (DELETE_item_missing _ _ Hwf Hget).
Qed.

Lemma count_changes_by_at_most_one_witness :
  S (length (store (serve (Delete uuid_a) world_ab).2))
  = length (store world_ab).
Proof.
  assert (Hwf : wf world_ab).
  { apply reachable_wf, serve_all_reachable. constructor. }
  destruct (count_changes_by_at_most_one (Delete uuid_a) world_ab Hwf)
    as [H|H]; [by vm_compute in H|exact H].
Defined.

(** X15: in every reachable world no object is stored under two
    identifiers, and every stored reference points to a live object: what
    [update_item] writes through one identifier cannot show under
    another. *)
Theorem stored_objects_are_not_shared w k1 k2 r :
  reachable w ->
  dict_get k1 (items_db w) = Some r -> dict_get k2 (items_db w) = Some r ->
  k1 = k2 /\ is_Some (heap w !! r).
Proof.
  intros (_ & Hv & Hnd)%reachable_wf H1%dict_get_Some_elem H2%dict_get_Some_elem.
  split; [by eapply NoDup_values_key|].
  apply lookup_lt_is_Some_2. eapply Forall_forall in Hv; [done|].
  apply list_elem_of_fmap. by exists (k1, r).
Qed.

Lemma stored_objects_are_not_shared_witness :
  uuid_b = uuid_b /\ is_Some (heap world_ab !! 1).
Proof.
  assert (Hr : reachable world_ab).
  { apply serve_all_reachable. constructor. }
  assert (Hb : dict_get uuid_b (items_db world_ab) = Some 1) by reflexivity.
  apply (stored_objects_are_not_shared world_ab uuid_b uuid_b 1 Hr Hb Hb).
Defined.

(** X16: listing and lookup agree.  In every reachable world, each item
    that [list_items] returns, for any [skip] and [limit], is the item
    [get_item] returns for its identifier. *)
Theorem listed_items_can_be_fetched w skip limit items item :
  reachable w ->
  (GET_items skip limit w).1 = Return items -> item ∈ items ->
  GET_item (ItemResponse.id item) w = (Return item, w).
Proof.
  intros Hr. pose proof (reachable_wf _ Hr) as Hwf.
  destruct (reachable_store_inv _ Hr) as [Hok _].
  rewrite GET_items_run by done. simpl. intros [= <-] Hin.
  destruct (list_slice_infix (dict_values (store w)) skip (skip + limit))
    as (before & after & Hall).
  assert (Hin' : item ∈ dict_values (store w)).
  { rewrite Hall, !elem_of_app. auto. }
  apply list_elem_of_fmap in Hin' as ([k item'] & -> & Hkv).
  eapply Forall_forall in Hok; [|done]. destruct Hok as [_ Hid].
  simpl in *. rewrite Hid. rewrite GET_item_run by done.
  apply store_elem_get in Hkv; [|done]. by rewrite Hkv.
Qed.

Lemma listed_items_can_be_fetched_witness :
  GET_item uuid_b world_ab
  = (Return (ItemResponse.mk uuid_b "walk dog" true), world_ab).
Proof.
  assert (Hr : reachable world_ab).
  { apply serve_all_reachable. constructor. }
  assert (Hl : (GET_items 1 5 world_ab).1
               = Return [ItemResponse.mk uuid_b "walk dog" true])
    by reflexivity.
  assert (Hin : ItemResponse.mk uuid_b "walk dog" true
                ∈ [ItemResponse.mk uuid_b "walk dog" true]).
  { apply elem_of_cons. by left. }
  apply (listed_items_can_be_fetched world_ab 1 5 _ _ Hr Hl Hin).
Defined.
